(** * CVPR abstract scraper: a Rocq model of [cvpr_abstract_scraper_async.py]

    The development embeds the fetch-and-extract pipeline of the scraper
    ([CVPRScraperAsync]) and settles the properties the specification
    states about it.

    Conventions.
    - A Python [str] is a [string]; each character stands for one code
      point in the range 0..255, so [len] is [String.length].
    - A Python [int] is a [Z].
    - The libraries the scraper calls (BeautifulSoup, urllib, aiohttp)
      are an interface, [Env]; the interpreter's [hash] is modelled from
      CPython (SipHash-1-3 keyed by the per-process hash secret).
    - Coroutines run in a state-and-exception monad over [World]: the
      cache directory, the requests issued, and the log.
    - Operations on the cache directory succeed: the constructor
      creates the directory, and the keys the program builds
      ([cvpr_<year>_main], [cvpr_<year>_listing], [paper_<hash>]) are
      valid file names. The host is a POSIX one. *)

From Stdlib Require Import ZArith Ascii String List Lia Bool.
From stdpp Require Import base option list gmap strings pretty sorting.

Set Default Proof Using "Type".

(** ** Python string primitives *)

Module PyStr.

Definition ord (c : ascii) : N := N_of_ascii c.
Definition chr (n : N) : ascii := ascii_of_N n.

(** [str.isspace] on one character, which is also the class [\s] of
    [re] on [str] patterns: TAB..CR, FS..US, SPACE, NEL and NBSP. *)
Definition isspace (c : ascii) : bool :=
  let n := ord c in
  ((9 <=? n) && (n <=? 13) || (28 <=? n) && (n <=? 32)
   || (n =? 133) || (n =? 160))%N.

(** The class [\d] of [re]. *)
Definition isdigit (c : ascii) : bool :=
  let n := ord c in ((48 <=? n) && (n <=? 57))%N.

(** [str.lower] on one character. *)
Definition lower_char (c : ascii) : ascii :=
  let n := ord c in
  if ((65 <=? n) && (n <=? 90)
      || (192 <=? n) && (n <=? 214) || (216 <=? n) && (n <=? 222))%N
  then chr (n + 32) else c.

Fixpoint lower (s : string) : string :=
  match s with
  | EmptyString => EmptyString
  | String c s' => String (lower_char c) (lower s')
  end.

Fixpoint lstrip (s : string) : string :=
  match s with
  | EmptyString => EmptyString
  | String c s' => if isspace c then lstrip s' else s
  end.

(** [s.rstrip()]: a character is kept when it is not white space or
    something is kept after it. *)
Fixpoint rstrip (s : string) : string :=
  match s with
  | EmptyString => EmptyString
  | String c s' =>
      match rstrip s' with
      | EmptyString => if isspace c then EmptyString else String c EmptyString
      | r => String c r
      end
  end.

Definition strip (s : string) : string := rstrip (lstrip s).

(** [s.startswith(p)] *)
Fixpoint startswith (p s : string) : bool :=
  match p, s with
  | EmptyString, _ => true
  | String a p', String b s' => if Ascii.eqb a b then startswith p' s' else false
  | String _ _, EmptyString => false
  end.

(** [p in s] *)
Fixpoint contains (p s : string) : bool :=
  startswith p s ||
  match s with
  | EmptyString => false
  | String _ s' => contains p s'
  end.

(** [s.endswith(p)]: some suffix of [s] is [p]. *)
Fixpoint endswith (p s : string) : bool :=
  String.eqb p s ||
  match s with
  | EmptyString => false
  | String _ s' => endswith p s'
  end.

(** [s.replace(a, b)] for one-character [a] and [b]. *)
Fixpoint replace (a b : ascii) (s : string) : string :=
  match s with
  | EmptyString => EmptyString
  | String c s' => String (if Ascii.eqb c a then b else c) (replace a b s')
  end.

(** [s[:n]] *)
Fixpoint take (n : nat) (s : string) : string :=
  match n, s with
  | O, _ => EmptyString
  | S _, EmptyString => EmptyString
  | S n', String c s' => String c (take n' s')
  end.

(** [s[n:]] *)
Fixpoint drop (n : nat) (s : string) : string :=
  match n, s with
  | O, _ => s
  | S _, EmptyString => EmptyString
  | S n', String _ s' => drop n' s'
  end.

(** [s.split(sep)] for a one-character separator. *)
Fixpoint split (sep : ascii) (s : string) : list string :=
  match s with
  | EmptyString => [EmptyString]
  | String c s' =>
      if Ascii.eqb c sep then EmptyString :: split sep s'
      else match split sep s' with
           | [] => [String c EmptyString]
           | w :: ws => String c w :: ws
           end
  end.

(** Truthiness of a [str]. *)
Definition truthy (s : string) : bool :=
  match s with EmptyString => false | _ => true end.

(** Truthiness of an [Optional[str]]. *)
Definition truthy_opt (o : option string) : bool :=
  match o with Some s => truthy s | None => false end.

(** [x if x else None] *)
Definition or_None (s : string) : option string :=
  if truthy s then Some s else None.

(** [str(n)] for an [int]. *)
Definition of_int (n : Z) : string := pretty n.

End PyStr.

(** ** The two regular-expression substitutions of [scrape_paper] *)

Module PyRe.
Import PyStr.

(** Length of the longest run of [\s] at the head of [s]. *)
Fixpoint span_space (s : string) : nat :=
  match s with
  | String c s' => if isspace c then S (span_space s') else 0
  | EmptyString => 0
  end.

Fixpoint all_digits (s : string) : bool :=
  match s with
  | EmptyString => true
  | String c s' => isdigit c && all_digits s'
  end.

(** Length of the match of [CVPR\s+\d{4}] at the head of [s], if any.
    The greedy [\s+] takes the whole run of white space: giving some
    of it back would leave white space where a digit is required. *)
Definition match_cvpr_year (s : string) : option nat :=
  if startswith "CVPR" s then
    let r := drop 4 s in
    let k := span_space r in
    let d := take 4 (drop k r) in
    if (0 <? k)%nat && (String.length d =? 4)%nat && all_digits d
    then Some (4 + k + 4)%nat else None
  else None.

(** Scanner state of [re.sub(r'CVPR\s+\d{4}.*', '', s)]: copying,
    inside the matched head with [n] characters left, or inside the
    trailing [.*], which stops before a line feed. *)
Inductive sub_state := Copy | InHead (n : nat) | InTail.

Definition is_newline (c : ascii) : bool := (ord c =? 10)%N.

Fixpoint sub_cvpr_from (st : sub_state) (s : string) : string :=
  match s with
  | EmptyString => EmptyString
  | String c s' =>
      match st with
      | InHead (S (S n)) => sub_cvpr_from (InHead (S n)) s'
      | InHead _ => sub_cvpr_from InTail s'
      | InTail =>
          (* [.] does not match a line feed, and no match starts at one *)
          if is_newline c then String c (sub_cvpr_from Copy s')
          else sub_cvpr_from InTail s'
      | Copy =>
          match match_cvpr_year s with
          | Some (S (S n)) => sub_cvpr_from (InHead (S n)) s'
          | Some _ => sub_cvpr_from InTail s'
          | None => String c (sub_cvpr_from Copy s')
          end
      end
  end.

(** [re.sub(r'CVPR\s+\d{4}.*', '', s)] *)
Definition sub_cvpr (s : string) : string := sub_cvpr_from Copy s.

(** [re.sub(r'^Abstract\s*:?\s*', '', s, flags=re.IGNORECASE)] *)
Definition sub_abstract_label (s : string) : string :=
  if String.eqb (lower (take 8 s)) "abstract" then
    let r := lstrip (drop 8 s) in
    match r with
    | String ":" r' => lstrip r'
    | _ => r
    end
  else s.

End PyRe.

(** ** The interpreter's [hash] on [str]

    [scrape_paper] names a document's cache file after [hash(url)].
    CPython computes it with SipHash-1-3 over the string's bytes, keyed
    by the hash secret of the running process: 128 bits drawn at random
    at start-up, or derived from [PYTHONHASHSEED] when that is set. *)

Module PyHash.

Local Open Scope Z_scope.

Definition u64 (x : Z) : Z := Z.land x (Z.ones 64).

Definition rotl (x b : Z) : Z :=
  u64 (Z.lor (Z.shiftl x b) (Z.shiftr x (64 - b))).

Record sip := Sip { v0 : Z; v1 : Z; v2 : Z; v3 : Z }.

(** [SINGLE_ROUND]: two half rounds. *)
Definition single_round (s : sip) : sip :=
  let a := u64 (v0 s + v1 s) in
  let c := u64 (v2 s + v3 s) in
  let b := Z.lxor (rotl (v1 s) 13) a in
  let d := Z.lxor (rotl (v3 s) 16) c in
  let a := rotl a 32 in
  let c := u64 (c + b) in
  let a := u64 (a + d) in
  let b := Z.lxor (rotl b 17) c in
  let d := Z.lxor (rotl d 21) a in
  let c := rotl c 32 in
  Sip a b c d.

(** Little-endian word of at most eight bytes. *)
Fixpoint le_word (bs : list Z) : Z :=
  match bs with
  | [] => 0
  | b :: bs' => Z.lor b (Z.shiftl (le_word bs') 8)
  end.

Definition absorb (s : sip) (m : Z) : sip :=
  let s1 := single_round (Sip (v0 s) (v1 s) (v2 s) (Z.lxor (v3 s) m)) in
  Sip (Z.lxor (v0 s1) m) (v1 s1) (v2 s1) (v3 s1).

(** The main loop over whole eight-byte words, then the tail word
    that carries the length in its top byte. [fuel] bounds the number
    of words. *)
Fixpoint blocks (fuel : nat) (len : Z) (s : sip) (bs : list Z) : sip :=
  match fuel with
  | O => s
  | S fuel' =>
      if (8 <=? Z.of_nat (length bs)) then
        blocks fuel' len (absorb s (le_word (firstn 8 bs))) (skipn 8 bs)
      else absorb s (Z.lor (u64 (Z.shiftl len 56)) (le_word bs))
  end.

Definition siphash13 (k0 k1 : Z) (bs : list Z) : Z :=
  let s := Sip (Z.lxor k0 0x736f6d6570736575) (Z.lxor k1 0x646f72616e646f6d)
               (Z.lxor k0 0x6c7967656e657261) (Z.lxor k1 0x7465646279746573) in
  let s := blocks (S (length bs)) (Z.of_nat (length bs)) s bs in
  let s := Sip (v0 s) (v1 s) (Z.lxor (v2 s) 0xff) (v3 s) in
  let s := single_round (single_round (single_round s)) in
  Z.lxor (Z.lxor (v0 s) (v1 s)) (Z.lxor (v2 s) (v3 s)).

(** The two key words of the process. *)
Record secret := Secret { k0 : Z; k1 : Z }.

(** The generator that expands [PYTHONHASHSEED=n], [n > 0], into the
    secret's bytes; [PYTHONHASHSEED=0] gives the all-zero secret. *)
Fixpoint lcg_urandom (x : Z) (size : nat) : list Z :=
  match size with
  | O => []
  | S size' =>
      let x' := Z.land (x * 214013 + 2531011) (Z.ones 32) in
      Z.land (Z.shiftr x' 16) 0xff :: lcg_urandom x' size'
  end.

Definition secret_of_seed (n : Z) : secret :=
  if n =? 0 then Secret 0 0
  else let bs := lcg_urandom n 16 in
       Secret (le_word (firstn 8 bs)) (le_word (skipn 8 bs)).

Fixpoint bytes_of (s : string) : list Z :=
  match s with
  | EmptyString => []
  | String c s' => Z.of_N (N_of_ascii c) :: bytes_of s'
  end.

(** [hash(s)] for a [str]: the empty string hashes to 0, the word is
    read as a signed 64-bit integer, and -1 is reserved. *)
Definition hash (k : secret) (s : string) : Z :=
  match s with
  | EmptyString => 0
  | _ =>
      let x := siphash13 (k0 k) (k1 k) (bytes_of s) in
      let x := if 2 ^ 63 <=? x then x - 2 ^ 64 else x in
      if x =? -1 then -2 else x
  end.

End PyHash.

(** ** Data model *)

(** The dataclass [Paper]. *)
Record Paper := mkPaper {
  title : string;
  authors : string;
  abstract : string;
  year : Z;
  url : string;
  pdf_url : option string;
  supplementary_url : option string
}.

(** The fields of [CVPRScraperAsync] that steer the pipeline. [delay]
    only feeds [asyncio.sleep] and is left out. *)
Record CVPRScraperAsync := mkScraper {
  start_year : Z;
  end_year : Z;
  max_concurrent : Z;
  use_cache : bool;
  parallel_years : bool
}.

(** Exceptions (subclasses of [Exception]). *)
Inductive exn :=
| ValueError (msg : string)
| OtherError (msg : string).

(** What [scrape_paper] and [get_paper_urls_for_year] ask of a parsed
    page: [BeautifulSoup(content, 'html.parser')] seen through the
    queries the scraper makes, every element already reduced to its
    [get_text()]. *)
Record PageView := mkPage {
  (** [soup.select_one(selector)] *)
  select_one : string -> option string;
  (** [soup.find_all('a', href=True)]: target and text, document order *)
  find_all_a : list (string * string);
  (** [soup.find_all('p')] *)
  find_all_p : list string;
  (** [soup.find_all(['i', 'b', 'em', 'strong'])] *)
  find_all_emph : list string
}.

(** Outcome of [session.get(url)] followed by [response.text()]. *)
Inductive response :=
| Response (status : Z) (text : string)
| TransportError (e : exn).

(** The libraries and the process the scraper runs in. *)
Class Env := {
  (** [urllib.parse.urljoin]; it raises [ValueError] on some targets *)
  urljoin : string -> string -> exn + string;
  (** the HTML parser *)
  BeautifulSoup : string -> PageView;
  (** the remote server *)
  http_get : string -> response;
  (** the hash secret of this process *)
  hash_secret : PyHash.secret;
  (** the event loop: the rank at which a partition's coroutine
      finishes when partitions run concurrently *)
  finish_rank : Z -> nat
}.

(** Lines of the log that mark the progress of a run. *)
Inductive event :=
| NoUrls (year : Z)                                (* scrape_year, warning *)
| Scraped (year : Z) (papers failed : nat)         (* scrape_year, info *)
| YearError (year : Z) (e : exn)                   (* scrape_all_years, error *)
| Saved (filename : string) (papers : list Paper). (* save_papers_json_async *)

(** The state a run acts on.
    - [cache]: the files of [cvpr_cache/], file name to text on disk;
    - [requests]: the URLs requested from the server, oldest first;
    - [log]: oldest first. A [Saved] event stands for the file write
      itself and carries the records serialised into the file. *)
Record World := mkWorld {
  cache : gmap string string;
  requests : list string;
  log : list event
}.

(** ** Coroutines: state, exceptions, and waiting for ever *)

Inductive outcome (A : Type) :=
| Ok (a : A)
| Raise (e : exn)
| Hang.
Arguments Ok {A} a.
Arguments Raise {A} e.
Arguments Hang {A}.

Definition M (A : Type) : Type := World -> outcome A * World.

#[export] Instance M_ret : MRet M := fun A a w => (Ok a, w).

#[export] Instance M_bind : MBind M := fun A B f m w =>
  match m w with
  | (Ok a, w') => f a w'
  | (Raise e, w') => (Raise e, w')
  | (Hang, w') => (Hang, w')
  end.

Definition raise {A} (e : exn) : M A := fun w => (Raise e, w).
Definition hang {A} : M A := fun w => (Hang, w).

Definition try_map {A B} (f : A -> B) (r : exn + A) : exn + B :=
  match r with inl e => inl e | inr a => inr (f a) end.

(** A library call that returns or raises. *)
Definition lift {A} (r : exn + A) : M A :=
  match r with inl e => raise e | inr a => mret a end.

Definition emit (e : event) : M unit := fun w =>
  (Ok tt, mkWorld (cache w) (requests w) (log w ++ [e])).

Fixpoint mapM {A B} (f : A -> M B) (l : list A) : M (list B) :=
  match l with
  | [] => mret []
  | x :: l' => y ← f x; ys ← mapM f l'; mret (y :: ys)
  end.

(** ** The response cache and the fetcher ([get_cached_or_fetch]) *)

Section Fetcher.
Context {E : Env}.
Variable self : CVPRScraperAsync.

Import PyStr.

Definition CR : ascii := chr 13.
Definition LF : ascii := chr 10.

(** Reading a file opened with [open(path, 'r', encoding='utf-8')]:
    the text layer runs in universal-newlines mode, so a carriage
    return, alone or followed by a line feed, comes back as one line
    feed. [after_cr] tells that the previous character was a carriage
    return. *)
Fixpoint read_text_from (after_cr : bool) (s : string) : string :=
  match s with
  | EmptyString => EmptyString
  | String c s' =>
      if Ascii.eqb c CR then String LF (read_text_from true s')
      else if Ascii.eqb c LF && after_cr then read_text_from false s'
      else String c (read_text_from false s')
  end.

Definition read_text (s : string) : string := read_text_from false s.

(** [self.cache_dir / f"{cache_key}.html"], relative to the cache
    directory. *)
Definition cache_file (cache_key : string) : string := cache_key +:+ ".html".

(** Lines 104-107, the cache's [get]: [cache_file.exists()], then the
    file is opened for reading as text and read whole. (A failing read
    would be logged and followed by a fetch; reads do not fail here.) *)
Definition cache_get (cache_key : string) : M (option string) := fun w =>
  (Ok (read_text <$> cache w !! cache_file cache_key), w).

(** Lines 121-122, the cache's [put]: the cache file itself is opened
    with mode ['w'] and the text written to it. On a POSIX host the
    text layer writes line feeds unchanged. *)
Definition cache_put (cache_key content : string) : M unit := fun w =>
  (Ok tt, mkWorld (<[cache_file cache_key := content]> (cache w))
                  (requests w) (log w)).

(** [session.get(url)]; the request is recorded. *)
Definition session_get (url : string) : M response := fun w =>
  (Ok (http_get url), mkWorld (cache w) (requests w ++ [url]) (log w)).

Definition get_cached_or_fetch (url : string) (cache_key : option string)
  : M (option string) :=
  let cache_key :=
    match cache_key with
    | Some k => k
    | None => replace ":" "_" (replace "/" "_" url)
    end in
  cached ← (if use_cache self then cache_get cache_key else mret None);
  match cached with
  | Some content => mret (Some content)
  | None =>
      r ← session_get url;
      match r with
      | Response status content =>
          if (status =? 200)%Z then
            _ ← (if use_cache self then cache_put cache_key content
                 else mret tt);
            mret (Some content)
          else mret None
      | TransportError _ => mret None
      end
  end.

End Fetcher.

(** ** URL discovery ([get_paper_urls_for_year]) *)

Section Discovery.
Context {E : Env}.
Variable self : CVPRScraperAsync.

Import PyStr.

(** The loop over the links of the flat index page (years up to 2015). *)
Fixpoint collect_old (base_url : string) (links : list (string * string))
  : exn + list string :=
  match links with
  | [] => inr []
  | (href, _) :: rest =>
      if endswith ".html" href && contains "_" href
         && negb (startswith "http" href)
      then match urljoin base_url href with
           | inl e => inl e
           | inr full_url => try_map (cons full_url) (collect_old base_url rest)
           end
      else collect_old base_url rest
  end.

(** The search for the link to the full listing; it stops at the
    first link whose text mentions papers. *)
Fixpoint find_papers_page (base_url : string) (links : list (string * string))
  : exn + option string :=
  match links with
  | [] => inr None
  | (href, txt) :: rest =>
      let text := lower (strip txt) in
      if contains "all papers" text || contains "papers" text
      then try_map Some (urljoin base_url href)
      else find_papers_page base_url rest
  end.

(** The loop over the links of the listing page. *)
Fixpoint collect_new (year : Z) (papers_page_url : string)
         (links : list (string * string)) : exn + list string :=
  match links with
  | [] => inr []
  | (href, _) :: rest =>
      if contains ("CVPR" +:+ of_int year) href && contains "paper.html" href
         || contains ("cvpr_" +:+ of_int year) href && contains ".html" href
      then match urljoin papers_page_url href with
           | inl e => inl e
           | inr full_url =>
               try_map (cons full_url) (collect_new year papers_page_url rest)
           end
      else collect_new year papers_page_url rest
  end.

(** [list(set(paper_urls))]: each URL once. Python leaves the order
    of the result unspecified; the model fixes one. *)
Definition list_set (l : list string) : list string := remove_dups l.

Definition get_paper_urls_for_year (year : Z) : M (list string) :=
  let base_url :=
    if (year <=? 2015)%Z
    then "https://www.cv-foundation.org/openaccess/content_cvpr_"
         +:+ of_int year +:+ "/html/"
    else "https://openaccess.thecvf.com/CVPR" +:+ of_int year in
  content ← get_cached_or_fetch self base_url
              (Some ("cvpr_" +:+ of_int year +:+ "_main"));
  match content with
  | None => mret []
  | Some content =>
      if negb (truthy content) then mret [] else
      let soup := BeautifulSoup content in
      paper_urls ←
        (if (year <=? 2015)%Z then
           lift (collect_old base_url (find_all_a soup))
         else
           found ← lift (find_papers_page base_url (find_all_a soup));
           let papers_page_url :=
             if truthy_opt found then default EmptyString found
             else "https://openaccess.thecvf.com/CVPR" +:+ of_int year
                  +:+ "?day=all" in
           listing_content ← get_cached_or_fetch self papers_page_url
                               (Some ("cvpr_" +:+ of_int year +:+ "_listing"));
           if truthy_opt listing_content then
             let listing_soup :=
               BeautifulSoup (default EmptyString listing_content) in
             lift (collect_new year papers_page_url (find_all_a listing_soup))
           else mret []);
      mret (list_set paper_urls)
  end.

End Discovery.

(** ** Field extraction ([scrape_paper]) *)

Section FieldExtractor.
Context {E : Env}.
Variable self : CVPRScraperAsync.

Import PyStr PyRe.

Definition title_selectors : list string :=
  ["title"; "h1"; ".paper-title"; "#papertitle"].

Definition author_selectors : list string :=
  [".authors"; ".paper-authors"; "#authors"; ".author"].

(** The double-quote character, as a string. *)
Definition dquote : string := String (chr 34) EmptyString.

Definition abstract_selectors : list string :=
  [".abstract"; "#abstract"; ".paper-abstract";
   "div:contains(" +:+ dquote +:+ "Abstract" +:+ dquote +:+ ")";
   "p:contains(" +:+ dquote +:+ "Abstract" +:+ dquote +:+ ")";
   "div[id*=" +:+ dquote +:+ "abstract" +:+ dquote +:+ "]";
   "div[class*=" +:+ dquote +:+ "abstract" +:+ dquote +:+ "]"].

(** Lines 206-212. [title] is the loop variable: it is assigned at
    every selector that matches and the loop leaves at the first
    non-empty value. *)
Fixpoint title_loop (soup : PageView) (selectors : list string)
         (title : string) : string :=
  match selectors with
  | [] => title
  | selector :: rest =>
      match select_one soup selector with
      | Some text =>
          let title := strip text in
          let title := strip (sub_cvpr title) in
          if truthy title then title else title_loop soup rest title
      | None => title_loop soup rest title
      end
  end.

(** Lines 217-221: the first selector that matches decides. *)
Fixpoint authors_loop (soup : PageView) (selectors : list string)
         (authors : string) : string :=
  match selectors with
  | [] => authors
  | selector :: rest =>
      match select_one soup selector with
      | Some text => strip text
      | None => authors_loop soup rest authors
      end
  end.

(** Lines 224-228: the first emphasised text with a comma. *)
Fixpoint authors_fallback (elems : list string) (authors : string) : string :=
  match elems with
  | [] => authors
  | elem :: rest =>
      let text := strip elem in
      if contains "," text && (1 <? length (split "," text))%nat
      then text else authors_fallback rest authors
  end.

(** Lines 238-244. [abstract] is the loop variable: every match
    assigns it, and the loop leaves at the first value longer than 50
    characters. *)
Fixpoint abstract_loop (soup : PageView) (selectors : list string)
         (abstract : string) : string :=
  match selectors with
  | [] => abstract
  | selector :: rest =>
      match select_one soup selector with
      | Some text =>
          let abstract_text := strip text in
          let abstract := strip (sub_abstract_label abstract_text) in
          if (50 <? String.length abstract)%nat then abstract
          else abstract_loop soup rest abstract
      | None => abstract_loop soup rest abstract
      end
  end.

(** Lines 249-253: the first long paragraph that does not open with
    the word abstract. *)
Fixpoint abstract_fallback (paragraphs : list string) (abstract : string)
  : string :=
  match paragraphs with
  | [] => abstract
  | p :: rest =>
      let text := strip p in
      if (200 <? String.length text)%nat
         && negb (contains "abstract" (take 50 (lower text)))
      then text else abstract_fallback rest abstract
  end.

(** Lines 259-266: the loop over the hyperlinks, with the two
    variables it assigns. *)
Fixpoint links_loop (url : string) (links : list (string * string))
         (pdf_url supp_url : string) : exn + (string * string) :=
  match links with
  | [] => inr (pdf_url, supp_url)
  | (href, txt) :: rest =>
      let text := lower txt in
      if contains "pdf" text || endswith ".pdf" href then
        match urljoin url href with
        | inl e => inl e
        | inr u => links_loop url rest u supp_url
        end
      else if contains "supp" text || contains "supplementary" text then
        match urljoin url href with
        | inl e => inl e
        | inr u => links_loop url rest pdf_url u
        end
      else links_loop url rest pdf_url supp_url
  end.

Definition extract_title (soup : PageView) : string :=
  title_loop soup title_selectors EmptyString.

Definition extract_authors (soup : PageView) : string :=
  let authors := authors_loop soup author_selectors EmptyString in
  if negb (truthy authors) then authors_fallback (find_all_emph soup) authors
  else authors.

Definition extract_abstract (soup : PageView) : string :=
  let abstract := abstract_loop soup abstract_selectors EmptyString in
  if negb (truthy abstract) then abstract_fallback (find_all_p soup) abstract
  else abstract.

(** The body of the [try] block of [scrape_paper], lines 201-280. *)
Definition extract (content url : string) (year : Z) : exn + option Paper :=
  let soup := BeautifulSoup content in
  let title := extract_title soup in
  let authors := extract_authors soup in
  let abstract := extract_abstract soup in
  match links_loop url (find_all_a soup) EmptyString EmptyString with
  | inl e => inl e
  | inr (pdf_url, supp_url) =>
      if truthy title && truthy abstract then
        inr (Some (mkPaper title authors abstract year url
                           (or_None pdf_url) (or_None supp_url)))
      else inr None
  end.

(** The cache key of a document page, line 196. *)
Definition paper_cache_key (url : string) : string :=
  "paper_" +:+ of_int (PyHash.hash hash_secret url).

Definition scrape_paper (url : string) (year : Z) : M (option Paper) :=
  content ← get_cached_or_fetch self url (Some (paper_cache_key url));
  if negb (truthy_opt content) then mret None else
  match extract (default EmptyString content) url year with
  | inr r => mret r
  | inl _ => mret None          (* except Exception: return None *)
  end.

End FieldExtractor.

(** ** The partition scheduler ([scrape_year], [scrape_all_years]) *)

Section Scheduler.
Context {E : Env}.
Variable self : CVPRScraperAsync.

Import PyStr.

(** [asyncio.Semaphore(value)] refuses a negative value. *)
Definition Semaphore (value : Z) : M Z :=
  if (value <? 0)%Z
  then raise (ValueError "Semaphore initial value must be >= 0")
  else mret value.

(** One partition. The fetch-and-extract units of the partition run
    under a semaphore created here, by this call; their requests are
    recorded one unit after the other, in the order of [paper_urls],
    and the records are collected in that order (the code collects
    them as the units finish). With a semaphore of value 0 no unit is
    ever admitted and the call waits for ever. *)
Definition scrape_year (year : Z) : M (list Paper) :=
  paper_urls ← get_paper_urls_for_year self year;
  match paper_urls with
  | [] => _ ← emit (NoUrls year); mret []
  | _ =>
      semaphore ← Semaphore (max_concurrent self);
      if (semaphore =? 0)%Z then hang else
      results ← mapM (fun url => scrape_paper self url year) paper_urls;
      let papers := omap id results in
      let failed_count := length (filter (fun r => r = None) results) in
      _ ← emit (Scraped year (length papers) failed_count);
      mret papers
  end.

(** [save_papers_json_async(papers, filename)]: the whole list is
    written, replacing the file. *)
Definition save_papers_json_async (papers : list Paper) (filename : string)
  : M unit :=
  emit (Saved filename papers).

Definition partial_file (year : Z) : string :=
  "cvpr_abstracts_partial_" +:+ of_int year +:+ ".json".

(** [list(range(self.start_year, self.end_year + 1))] *)
Definition years : list Z :=
  seqZ (start_year self) (end_year self + 1 - start_year self).

(** *** Partitions one at a time (lines 351-355) *)

Fixpoint sequential_loop (ys : list Z) (all_papers : list Paper)
  : M (list Paper) :=
  match ys with
  | [] => mret all_papers
  | year :: rest =>
      year_papers ← scrape_year year;
      let all_papers := all_papers ++ year_papers in
      _ ← save_papers_json_async all_papers (partial_file year);
      sequential_loop rest all_papers
  end.

(** *** Partitions side by side (lines 338-348) *)

(** The order in which the partitions' coroutines finish: the years
    sorted by [finish_rank], ties in key order. *)
Fixpoint insert_by_rank (y : Z) (l : list Z) : list Z :=
  match l with
  | [] => [y]
  | x :: l' =>
      if (finish_rank x <=? finish_rank y)%nat
      then x :: insert_by_rank y l' else y :: l
  end.

Definition completion_order (ys : list Z) : list Z :=
  foldr insert_by_rank [] ys.

(** The partitions' coroutines run to their end, each recorded as one
    block in the order they finish; an exception ends its own
    coroutine only. *)
Fixpoint run_tasks (order : list Z) (w : World)
  : list (Z * outcome (list Paper)) * World :=
  match order with
  | [] => ([], w)
  | y :: rest =>
      let '(r, w1) := scrape_year y w in
      let '(rs, w2) := run_tasks rest w1 in
      ((y, r) :: rs, w2)
  end.

Fixpoint lookup_task (y : Z) (done : list (Z * outcome (list Paper)))
  : outcome (list Paper) :=
  match done with
  | [] => Hang
  | (x, r) :: rest => if (x =? y)%Z then r else lookup_task y rest
  end.

(** The result list of [gather]: one entry per awaitable, in the
    order of the awaitables; no list while one of them is pending. *)
Fixpoint collect_results (ys : list Z) (done : list (Z * outcome (list Paper)))
  : option (list (exn + list Paper)) :=
  match ys with
  | [] => Some []
  | y :: rest =>
      match lookup_task y done, collect_results rest done with
      | Ok papers, Some rs => Some (inr papers :: rs)
      | Raise e, Some rs => Some (inl e :: rs)
      | _, _ => None
      end
  end.

(** [asyncio.gather] with [return_exceptions=True], awaited on the
    tasks [scrape_year(year) for year in years]. *)
Definition gather (ys : list Z) : M (list (exn + list Paper)) := fun w =>
  let '(done, w') := run_tasks (completion_order ys) w in
  match collect_results ys done with
  | Some results => (Ok results, w')
  | None => (Hang, w')
  end.

(** The loop over [zip(years, results)]. *)
Fixpoint merge_loop (zipped : list (Z * (exn + list Paper)))
         (all_papers : list Paper) : M (list Paper) :=
  match zipped with
  | [] => mret all_papers
  | (year, inl e) :: rest =>
      _ ← emit (YearError year e);
      merge_loop rest all_papers
  | (year, inr result) :: rest =>
      let all_papers := all_papers ++ result in
      _ ← save_papers_json_async all_papers (partial_file year);
      merge_loop rest all_papers
  end.

Definition scrape_all_years : M (list Paper) :=
  let all_papers := [] in
  if parallel_years self && (1 <? length years)%nat then
    results ← gather years;
    merge_loop (zip years results) all_papers
  else
    sequential_loop years all_papers.

End Scheduler.

(** ** The admission gate, step by step

    [scrape_year] creates its semaphore itself (line 305) and wraps
    every unit of its own partition in [async with semaphore] (lines
    307-309). The state below is what the event loop holds while several
    [scrape_year] coroutines are active: one semaphore per partition. *)

Module Gate.

Record partition := mkPartition {
  sem_value : Z;              (* the counter of this partition's semaphore *)
  waiting : list string;      (* units not yet admitted *)
  in_flight : list string;    (* units inside [scrape_paper] *)
  finished : list string
}.

(** The state of a partition right after line 312. *)
Definition start (self : CVPRScraperAsync) (paper_urls : list string)
  : partition :=
  mkPartition (max_concurrent self) paper_urls [] [].

(** Entering [async with semaphore]: the next waiting unit is
    admitted when the counter is positive. *)
Definition acquire (p : partition) : option partition :=
  match waiting p with
  | url :: rest =>
      if (0 <? sem_value p)%Z
      then Some (mkPartition (sem_value p - 1) rest
                             (url :: in_flight p) (finished p))
      else None
  | [] => None
  end.

(** Leaving [async with semaphore]: the [j]-th unit in flight is done. *)
Definition release (j : nat) (p : partition) : option partition :=
  match in_flight p !! j with
  | Some url =>
      Some (mkPartition (sem_value p + 1) (waiting p)
                        (delete j (in_flight p)) (url :: finished p))
  | None => None
  end.

(** What the event loop may do next, [i] being the partition. *)
Inductive action :=
| Acquire (i : nat)
| Release (i j : nat).

Definition exec (a : action) (ps : list partition) : option (list partition) :=
  match a with
  | Acquire i => p ← ps !! i; p' ← acquire p; Some (<[i := p']> ps)
  | Release i j => p ← ps !! i; p' ← release j p; Some (<[i := p']> ps)
  end.

Fixpoint run (schedule : list action) (ps : list partition)
  : option (list partition) :=
  match schedule with
  | [] => Some ps
  | a :: rest => ps' ← exec a ps; run rest ps'
  end.

(** Parallel mode: every partition active at once, each with the
    URLs it discovered. *)
Definition initial (self : CVPRScraperAsync) (urls : list (list string))
  : list partition :=
  map (start self) urls.


(** The counter of a partition's semaphore and the units the
    partition has in flight add up to the limit. *)
Definition balanced (self : CVPRScraperAsync) (p : partition) : Prop :=
  (0 <= sem_value p
   /\ sem_value p + Z.of_nat (length (in_flight p)) = max_concurrent self)%Z.

End Gate.

(** ** The cache file under concurrent coroutines

    A coroutine yields at every [await]; the two awaits of the cache
    write (lines 121-122) and the read (lines 104-107) are the points
    where another coroutine can run. *)

Module CacheRace.

Inductive op :=
| OpenW (file : string)                 (* aiofiles.open(file, 'w') *)
| WriteClose (file content : string)    (* f.write(content), then close *)
| ReadIfExists (file : string).         (* file.exists(), open, f.read() *)

(** The cache's [put] and [get] as sequences of atomic steps. *)
Definition put_ops (cache_key content : string) : list op :=
  [OpenW (cache_file cache_key); WriteClose (cache_file cache_key) content].

Definition get_ops (cache_key : string) : list op :=
  [ReadIfExists (cache_file cache_key)].

(** Writing [content] through a descriptor positioned at 0. *)
Definition overlay (content old : string) : string :=
  content +:+ PyStr.drop (String.length content) old.

Record state := mkState {
  disk : gmap string string;           (* the files of the cache directory *)
  pool : list (list op);               (* what each coroutine has left to do *)
  seen : list (option string)          (* what the reads returned, oldest first *)
}.

Definition exec_op (o : op) (d : gmap string string) (s : list (option string))
  : gmap string string * list (option string) :=
  match o with
  | OpenW f => (<[f := EmptyString]> d, s)
  | WriteClose f content =>
      (<[f := overlay content (default EmptyString (d !! f))]> d, s)
  | ReadIfExists f => (d, s ++ [read_text <$> d !! f])
  end.

(** Coroutine [i] runs up to its next await. *)
Definition step (i : nat) (st : state) : option state :=
  match pool st !! i with
  | Some (o :: rest) =>
      let '(d, s) := exec_op o (disk st) (seen st) in
      Some (mkState d (<[i := rest]> (pool st)) s)
  | _ => None
  end.

Fixpoint run (schedule : list nat) (st : state) : option state :=
  match schedule with
  | [] => Some st
  | i :: rest => st' ← step i st; run rest st'
  end.


(** A [put] between its two steps: the file is open and truncated,
    the text not yet written. *)
Definition opened (cache_key content : string) : list op :=
  [WriteClose (cache_file cache_key) content].

(** What a read of the cache file may return while [content] is being
    stored over the directory [d0]: what [d0] had (or a miss), the
    empty text of the truncated file, or the text stored. *)
Definition observable (cache_key content : string) (d0 : gmap string string)
           (o : option string) : Prop :=
  o = read_text <$> d0 !! cache_file cache_key
  \/ o = Some EmptyString
  \/ o = Some (read_text content).

(** The first [nput] coroutines are stores, the others look-ups. *)
Definition well_formed (cache_key content : string) (nput : nat)
           (pl : list (list op)) : Prop :=
  forall i t, pl !! i = Some t ->
    if (i <? nput)%nat
    then t = put_ops cache_key content \/ t = opened cache_key content \/ t = []
    else t = get_ops cache_key \/ t = [].

(** The three conditions the cache file goes through. *)
Inductive phase (cache_key content : string) (nput : nat)
          (d0 : gmap string string) (st : state) : Prop :=
| Fresh :
    disk st !! cache_file cache_key = d0 !! cache_file cache_key ->
    (forall i, (i < nput)%nat ->
               pool st !! i = Some (put_ops cache_key content)) ->
    phase cache_key content nput d0 st
| Torn :
    disk st !! cache_file cache_key = Some EmptyString ->
    (exists i, pool st !! i = Some (opened cache_key content)) ->
    phase cache_key content nput d0 st
| Full :
    disk st !! cache_file cache_key = Some content ->
    phase cache_key content nput d0 st.

(** [nput] coroutines about to store [content] under [cache_key] and
    [nget] coroutines about to look [cache_key] up, over the cache
    directory [d]. *)
Definition initial (cache_key content : string) (nput nget : nat)
           (d : gmap string string) : state :=
  mkState d (replicate nput (put_ops cache_key content)
             ++ replicate nget (get_ops cache_key)) [].

End CacheRace.

(** ** A small site to run the pipeline on

    Four partitions: 2015 (flat index, three documents: a complete one,
    one with a short abstract block, one without a title), 2016 (its
    listing holds a link no URL parser accepts), 2017 (one document
    whose abstract is a long paragraph) and 2018 (one plain document). *)

Module Fixture.
Import PyStr.

(** [urljoin] on the targets of the site: an absolute target stands
    for itself, a relative one is appended to a base that ends with a
    slash, and a bracket that opens an unterminated IPv6 host is
    refused. *)
Definition site_urljoin (base href : string) : exn + string :=
  if startswith "http://[" href then inl (ValueError "Invalid IPv6 URL")
  else if startswith "http" href then inr href
  else inr (base +:+ href).

Definition index_2015 : string :=
  "https://www.cv-foundation.org/openaccess/content_cvpr_2015/html/".
Definition doc_a : string := index_2015 +:+ "A_B_CVPR_2015_paper.html".
Definition doc_c : string := index_2015 +:+ "C_D_CVPR_2015_paper.html".
Definition doc_n : string := index_2015 +:+ "N_O_CVPR_2015_paper.html".
Definition main_2016 : string := "https://openaccess.thecvf.com/CVPR2016".
Definition list_2016 : string := "https://openaccess.thecvf.com/CVPR2016?day=all".
Definition main_2017 : string := "https://openaccess.thecvf.com/CVPR2017".
Definition list_2017 : string := "https://openaccess.thecvf.com/CVPR2017?day=all".
Definition doc_e : string :=
  "https://openaccess.thecvf.com/content_cvpr_2017/html/E_F_CVPR_2017_paper.html".
Definition main_2018 : string := "https://openaccess.thecvf.com/CVPR2018".
Definition list_2018 : string := "https://openaccess.thecvf.com/CVPR2018?day=all".
Definition doc_g : string :=
  "https://openaccess.thecvf.com/content_cvpr_2018/html/G_H_CVPR_2018_paper.html".

(** The server: every page answers 200 with a body that names it. *)
Definition bodies : list (string * string) :=
  [(index_2015, "<index 2015>"); (doc_a, "<doc a>"); (doc_c, "<doc c>");
   (doc_n, "<doc n>");
   (main_2016, "<main 2016>"); (list_2016, "<list 2016>");
   (main_2017, "<main 2017>"); (list_2017, "<list 2017>"); (doc_e, "<doc e>");
   (main_2018, "<main 2018>"); (list_2018, "<list 2018>"); (doc_g, "<doc g>")].

Fixpoint assoc {A} (k : string) (l : list (string * A)) : option A :=
  match l with
  | [] => None
  | (k', v) :: rest => if String.eqb k k' then Some v else assoc k rest
  end.

Definition site_get (url : string) : response :=
  match assoc url bodies with
  | Some body => Response 200 body
  | None => Response 404 "not found"
  end.

Definition abstract_a : string :=
  "We train deep networks on large image collections and report strong results.".

Definition paragraph_e : string :=
  "This paper studies how far a simple pipeline can go when the page layout gives no hint at all about where the summary of the work is placed, so that only the length of a paragraph tells it apart from navigation text and captions.".

Definition page (selectors : list (string * string))
           (links : list (string * string)) (ps emph : list string)
  : PageView :=
  mkPage (fun sel => assoc sel selectors) links ps emph.

(** The parser: each body of the site, seen through the queries. *)
Definition pages : list (string * PageView) :=
  [("<index 2015>",
    page [] [("A_B_CVPR_2015_paper.html", "Deep Nets");
             ("C_D_CVPR_2015_paper.html", "Short Paper");
             ("N_O_CVPR_2015_paper.html", "Untitled");
             ("https://www.cv-foundation.org/", "home")] [] []);
   ("<doc a>",
    page [("title", "Deep Nets CVPR 2015 Open Access");
          (".authors", " Ada B, Carl D ");
          (".abstract", "Abstract: " +:+ abstract_a)]
         [("https://www.cv-foundation.org/a.pdf", "pdf");
          ("https://www.cv-foundation.org/a_supp.zip", "supp");
          ("https://www.cv-foundation.org/a_supp.pdf", "Supplementary PDF")]
         [] []);
   ("<doc c>",
    page [("title", "Short Paper"); (".abstract", "Abstract: Too short.")]
         [] ["Home"] []);
   ("<doc n>",
    page [("title", "CVPR 2015 Open Access"); (".abstract", abstract_a)]
         [] [] []);
   ("<main 2016>", page [] [(list_2016, "All Papers")] [] []);
   ("<list 2016>", page [] [("http://[content_cvpr_2016].html", "broken")] [] []);
   ("<main 2017>", page [] [(list_2017, "Papers")] [] []);
   ("<list 2017>", page [] [(doc_e, "Long Paragraph Paper")] [] []);
   ("<doc e>",
    page [("h1", "Long Paragraph Paper")] []
         ["Back to index"; paragraph_e] ["Eve F, Gil H"]);
   ("<main 2018>", page [] [] [] []);
   ("<list 2018>", page [] [(doc_g, "Plain Paper")] [] []);
   ("<doc g>",
    page [("title", "Plain Paper"); ("#abstract", abstract_a)]
         [("https://openaccess.thecvf.com/content_cvpr_2018/papers/G_H.pdf",
           "download")] [] [])].

Definition site_soup (content : string) : PageView :=
  default (page [] [] [] []) (assoc content pages).

(** The site, visited by a process with hash secret [k] under an
    event loop that finishes partitions at the ranks [rank]. *)
Definition site (k : PyHash.secret) (rank : Z -> nat) : Env :=
  {| urljoin := site_urljoin; BeautifulSoup := site_soup;
     http_get := site_get; hash_secret := k; finish_rank := rank |}.

Definition empty_world : World := mkWorld ∅ [] [].

(** A later run of the program: the cache directory stays, the
    counters of the run start afresh. *)
Definition next_run (w : World) : World := mkWorld (cache w) [] [].

(** Completion orders: by key, and the reverse. *)
Definition in_key_order (y : Z) : nat := Z.to_nat y.
Definition in_reverse_order (y : Z) : nat := 3000 - Z.to_nat y.

Definition config (first last limit : Z) (parallel : bool) : CVPRScraperAsync :=
  mkScraper first last limit true parallel.

Definition only_2015 : CVPRScraperAsync := config 2015 2015 100 false.
Definition three_sequential : CVPRScraperAsync := config 2015 2017 100 false.
Definition two_parallel : CVPRScraperAsync := config 2017 2018 100 true.
Definition two_sequential : CVPRScraperAsync := config 2017 2018 100 false.

(** Two processes that differ in their hash secret only, as started
    with [PYTHONHASHSEED=1] and [PYTHONHASHSEED=2]. *)
Definition env1 : Env := site (PyHash.secret_of_seed 1) in_key_order.
Definition env2 : Env := site (PyHash.secret_of_seed 2) in_key_order.

(** The first process again, its partitions finishing last key first. *)
Definition env_rev : Env := site (PyHash.secret_of_seed 1) in_reverse_order.

(** The state a first process leaves behind once it has fetched
    [doc_a]. *)
Definition first_run : World :=
  (scrape_paper (E:=env1) only_2015 doc_a 2015 empty_world).2.

(** Partitions 2015 to 2017 one at a time: the state after 2015, and
    the state in which 2016 raises. *)
Definition after_2015 : World :=
  (sequential_loop (E:=env1) three_sequential [2015%Z] [] empty_world).2.
Definition raised_2016 : World :=
  (scrape_year (E:=env1) three_sequential 2016 after_2015).2.

(** Partitions 2017 and 2018 side by side, 2018 finishing first: the
    state at the end. *)
Definition finished_rev : World :=
  (scrape_all_years (E:=env_rev) two_parallel empty_world).2.

(** Partitions 2017 and 2018 side by side under a limit of one. *)
Definition limit_one : CVPRScraperAsync := config 2017 2018 1 true.


(** The records the documents of the site give. *)
Definition paper_a : Paper :=
  mkPaper "Deep Nets" "Ada B, Carl D" abstract_a 2015 doc_a
          (Some "https://www.cv-foundation.org/a_supp.pdf")
          (Some "https://www.cv-foundation.org/a_supp.zip").
Definition paper_c : Paper :=
  mkPaper "Short Paper" "" "Too short." 2015 doc_c None None.
Definition paper_e : Paper :=
  mkPaper "Long Paragraph Paper" "Eve F, Gil H" paragraph_e 2017 doc_e
          None None.
Definition paper_g : Paper :=
  mkPaper "Plain Paper" "" abstract_a 2018 doc_g
          (Some "https://openaccess.thecvf.com/content_cvpr_2018/papers/G_H.pdf")
          None.

End Fixture.

(** ** Reference definitions

    The properties below are stated against these descriptions, which
    follow the words of the specification; the theorems compare them
    with the code's loops. *)

Module LinkSpec.
Import PyStr.






End LinkSpec.

Module AbstractSpec.
Import PyStr PyRe.

(** The text of a matched abstract block once the label is cut off. *)
Definition cleaned (text : string) : string :=
  strip (sub_abstract_label (strip text)).

(** The cleaned texts of the selectors that match, in selector order. *)
Definition cleaned_matches (soup : PageView) (selectors : list string)
  : list string :=
  omap (fun selector => cleaned <$> select_one soup selector) selectors.

End AbstractSpec.

Module CacheSpec.


End CacheSpec.

Module RunSpec.

(** The records a finished partition contributes: its result, or
    nothing when it raised. *)
Definition contribution (r : exn + list Paper) : list Paper :=
  match r with inr papers => papers | inl _ => [] end.

(** The log lines of the merge in parallel mode: partitions in key
    order, a checkpoint of the records so far for each partition that
    has a result, an error line for each that raised. *)
Fixpoint merge_events (zipped : list (Z * (exn + list Paper)))
         (all_papers : list Paper) : list event :=
  match zipped with
  | [] => []
  | (year, inl e) :: rest => YearError year e :: merge_events rest all_papers
  | (year, inr papers) :: rest =>
      Saved (partial_file year) (all_papers ++ papers)
      :: merge_events rest (all_papers ++ papers)
  end.

Definition add_log (w : World) (es : list event) : World :=
  mkWorld (cache w) (requests w) (log w ++ es).

(** A computation that writes no log line. *)
Definition keeps_log {A} (m : M A) : Prop := forall w, log (m w).2 = log w.

(** The two marks of progress a log shows: a partition ran to its
    end, a checkpoint file was written. *)
Inductive mark :=
| Completed (year : Z)
| Checkpoint (filename : string).

Fixpoint marks (l : list event) : list mark :=
  match l with
  | [] => []
  | Scraped y _ _ :: rest => Completed y :: marks rest
  | NoUrls y :: rest => Completed y :: marks rest
  | Saved filename _ :: rest => Checkpoint filename :: marks rest
  | YearError _ _ :: rest => marks rest
  end.

Definition is_ok {A} (o : outcome A) : bool :=
  match o with Ok _ => true | _ => false end.



End RunSpec.

(** ** Reporting and the command line ([get_statistics], [main]) *)

Module Reporting.
Import PyStr.

(** [sorted(list(set(xs)))] over integers. *)
Definition sorted_set (xs : list Z) : list Z :=
  merge_sort Z.le (remove_dups xs).

(** The dict [get_statistics] returns when there are records: the
    keys [total_papers] and [years], and [papers_per_year] as the
    pairs of the dict in insertion order. *)
Record Statistics := mkStatistics {
  total_papers : nat;
  stat_years : list Z;
  papers_per_year : list (Z * nat)
}.

(** [get_statistics], on the value of [self.papers]; [None] is the
    empty dict it returns when there are no records. *)
Definition get_statistics (papers : list Paper) : option Statistics :=
  match papers with
  | [] => None
  | _ =>
      let ys := sorted_set (map year papers) in
      Some (mkStatistics
              (length papers) ys
              (map (fun y => (y, length (filter (fun p => year p = y) papers)))
                   ys))
  end.

(** The choices of [--format]. *)
Inductive output_format := FormatJson | FormatCsv | FormatBoth.

(** The parsed command line; [--delay] only feeds [asyncio.sleep]. *)
Record Args := mkArgs {
  arg_start_year : Z;
  arg_end_year : Z;
  arg_concurrent : Z;
  arg_output_dir : string;
  arg_format : output_format;
  arg_no_cache : bool;
  arg_sequential_years : bool
}.








End Reporting.

(** ** Further reference definitions *)

Module PipelineSpec.
Import PyStr PyRe.

(** The index page of a partition and the cache keys of its pages. *)
Definition index_url (year : Z) : string :=
  if (year <=? 2015)%Z
  then "https://www.cv-foundation.org/openaccess/content_cvpr_"
       +:+ of_int year +:+ "/html/"
  else "https://openaccess.thecvf.com/CVPR" +:+ of_int year.

Definition main_key (year : Z) : string := "cvpr_" +:+ of_int year +:+ "_main".
Definition listing_key (year : Z) : string :=
  "cvpr_" +:+ of_int year +:+ "_listing".

Definition default_listing_url (year : Z) : string :=
  "https://openaccess.thecvf.com/CVPR" +:+ of_int year +:+ "?day=all".

(** The links the flat layout takes: targets that end in the HTML
    extension, hold an underscore and are not absolute. *)
Definition flat_link (href : string) : bool :=
  endswith ".html" href && contains "_" href && negb (startswith "http" href).

(** The links the listing layout takes. *)
Definition listing_link (year : Z) (href : string) : bool :=
  contains ("CVPR" +:+ of_int year) href && contains "paper.html" href
  || contains ("cvpr_" +:+ of_int year) href && contains ".html" href.

(** The text a link to the full listing carries. *)
Definition papers_link (txt : string) : bool :=
  contains "papers" (lower (strip txt)).

(** The key [get_cached_or_fetch] derives from a URL. *)
Definition default_key (url : string) : string :=
  replace ":" "_" (replace "/" "_" url).

(** One world extends another: every cache file is still there with
    the same text, and requests and log have only grown. *)
Definition extends (w w' : World) : Prop :=
  cache w ⊆ cache w'
  /\ requests w `prefix_of` requests w'
  /\ log w `prefix_of` log w'.

Definition monotone {A} (m : M A) : Prop := forall w, extends w (m w).2.

(** A computation that leaves the cache directory as it is. *)
Definition keeps_cache {A} (m : M A) : Prop :=
  forall w, cache (m w).2 = cache w.

(** The record lists of the files a log reports as saved, oldest
    first. *)
Fixpoint saved_lists (l : list event) : list (list Paper) :=
  match l with
  | [] => []
  | Saved _ papers :: rest => papers :: saved_lists rest
  | _ :: rest => saved_lists rest
  end.

(** The cleaned text of a matched title element. *)
Definition cleaned_title (text : string) : string :=
  strip (sub_cvpr (strip text)).

(** A paragraph the abstract fallback takes. *)
Definition long_paragraph (p : string) : bool :=
  (200 <? String.length (strip p))%nat
  && negb (contains "abstract" (take 50 (lower (strip p)))).

(** The number of occurrences of a character. *)
Fixpoint count_char (c : ascii) (s : string) : nat :=
  match s with
  | EmptyString => 0
  | String a s' => (if Ascii.eqb a c then 1 else 0) + count_char c s'
  end.

(** The units of a partition, whatever their stage. *)
Definition units (p : Gate.partition) : list string :=
  Gate.waiting p ++ Gate.in_flight p ++ Gate.finished p.

(** Steps a partition has behind it: one for each unit in flight, two
    for each unit finished. *)
Definition steps_done (ps : list Gate.partition) : nat :=
  sum_list (map (fun p => length (Gate.in_flight p)
                          + 2 * length (Gate.finished p)) ps).


End PipelineSpec.

(** ** More runs on the small site *)

Module Site.
Import Fixture.

(** The scraper of partition 2015 with the cache switched off. *)
Definition uncached_2015 : CVPRScraperAsync := mkScraper 2015 2015 100 false false.


(** The site with an index page of 2015 that links the first document
    twice. *)
Definition dup_soup (content : string) : PageView :=
  if String.eqb content "<index 2015>"
  then page [] [("A_B_CVPR_2015_paper.html", "Deep Nets");
                ("A_B_CVPR_2015_paper.html", "Deep Nets, again");
                ("C_D_CVPR_2015_paper.html", "Short Paper")] [] []
  else site_soup content.

Definition env_dup : Env :=
  {| urljoin := site_urljoin; BeautifulSoup := dup_soup;
     http_get := site_get; hash_secret := PyHash.secret_of_seed 1;
     finish_rank := in_key_order |}.

(** Worlds along the discovery of 2015 and of 2017 over an empty
    cache. *)
Definition index_2015_fetched : World :=
  (get_cached_or_fetch (E:=env1) only_2015 index_2015
     (Some "cvpr_2015_main") empty_world).2.
Definition main_2017_fetched : World :=
  (get_cached_or_fetch (E:=env1) two_sequential main_2017
     (Some "cvpr_2017_main") empty_world).2.
Definition list_2017_fetched : World :=
  (get_cached_or_fetch (E:=env1) two_sequential list_2017
     (Some "cvpr_2017_listing") main_2017_fetched).2.


(** Partition 2015 over an empty cache: after discovery, and at the
    end. *)
Definition discovered_2015 : World :=
  (get_paper_urls_for_year (E:=env1) only_2015 2015 empty_world).2.
Definition scraped_2015 : World :=
  (scrape_year (E:=env1) only_2015 2015 empty_world).2.

(** Scrapers of partition 2017 with a negative and a zero limit, and
    the world after the discovery of 2017. *)
Definition negative_limit : CVPRScraperAsync := config 2017 2017 (-1) false.
Definition zero_limit : CVPRScraperAsync := config 2017 2017 0 false.
Definition discovered_2017 : World :=
  (get_paper_urls_for_year (E:=env1) negative_limit 2017 empty_world).2.

(** An empty range of partitions, and the single partition 2016 with
    parallel mode on. *)
Definition empty_range : CVPRScraperAsync := config 2016 2015 100 true.
Definition single_parallel : CVPRScraperAsync := config 2016 2016 100 true.


(** A command line: partitions 2015 to 2017 one at a time, both
    formats, into the directory out; and the same side by side. *)
Definition args_sequential : Reporting.Args :=
  Reporting.mkArgs 2015 2017 100 "out" Reporting.FormatBoth false true.
Definition args_parallel : Reporting.Args :=
  Reporting.mkArgs 2015 2017 100 "out" Reporting.FormatBoth false false.


(** Five records of the site and the statistics over them. *)
Definition five_records : list Paper :=
  [paper_a; paper_c; paper_e; paper_g; paper_g].
Definition five_statistics : Reporting.Statistics :=
  Reporting.mkStatistics 5 [2015; 2017; 2018]%Z
    [(2015%Z, 2%nat); (2017%Z, 1%nat); (2018%Z, 2%nat)].

End Site.

(** * Properties *)

(** ** The response cache *)

Section CacheFacts.
Context {E : Env}.
Variable self : CVPRScraperAsync.

Import PyStr CacheSpec.




(** The fetcher never raises and never waits for ever. *)
Lemma get_cached_or_fetch_ok (url : string) (k : option string) (w : World) :
  exists o w', get_cached_or_fetch self url k w = (Ok o, w').
Proof.
  unfold get_cached_or_fetch, mbind, M_bind, mret, M_ret, cache_get,
    session_get, cache_put.
  destruct (use_cache self); simpl.
  - destruct (cache w !! _) as [d|]; simpl; [by eauto|].
    destruct (http_get url) as [st c|e]; simpl; [|by eauto].
    destruct (st =? 200)%Z; simpl; by eauto.
  - destruct (http_get url) as [st c|e]; simpl; [|by eauto].
    destruct (st =? 200)%Z; simpl; by eauto.
Qed.



End CacheFacts.



(** ** Field extraction *)

Section FieldExtractorFacts.
Context {E : Env}.
Variable self : CVPRScraperAsync.

Import PyStr LinkSpec.

Lemma truthy_true (s : string) : truthy s = true <-> s <> EmptyString.
Proof. destruct s; simpl; split; congruence. Qed.

(** What [extract] returns when it returns a record. *)
Lemma extract_Some (content url : string) (year : Z) (p : Paper) :
  extract content url year = inr (Some p) ->
  exists pdf supp,
    links_loop url (find_all_a (BeautifulSoup content)) EmptyString EmptyString
    = inr (pdf, supp)
    /\ truthy (extract_title (BeautifulSoup content)) = true
    /\ truthy (extract_abstract (BeautifulSoup content)) = true
    /\ p = mkPaper (extract_title (BeautifulSoup content))
                   (extract_authors (BeautifulSoup content))
                   (extract_abstract (BeautifulSoup content))
                   year url (or_None pdf) (or_None supp).
Proof.
  unfold extract.
  destruct (links_loop _ _ _ _) as [e|[pdf supp]]; [discriminate|].
  destruct (truthy (extract_title _)) eqn:Ht; simpl; [|discriminate].
  destruct (truthy (extract_abstract _)) eqn:Ha; simpl; [|discriminate].
  intros [= <-]. by exists pdf, supp.
Qed.

(** A page without a title or without an abstract gives no record. *)
Lemma extract_rejects (content url : string) (year : Z) :
  extract_title (BeautifulSoup content) = EmptyString
  \/ extract_abstract (BeautifulSoup content) = EmptyString ->
  extract content url year = inr None
  \/ exists e, extract content url year = inl e.
Proof.
  intros H. unfold extract.
  destruct (links_loop _ _ _ _) as [e|[pdf supp]]; [right; by eauto|].
  left. destruct H as [-> | ->]; simpl; [done|].
  by rewrite andb_false_r.
Qed.

(** What the selector loop leaves in its variable: the first cleaned
    match longer than 50 characters, and otherwise the last cleaned
    match, however short. *)
Lemma abstract_loop_result (soup : PageView) (selectors : list string)
      (abstract0 : string) :
  (50 < String.length (abstract_loop soup selectors abstract0))%nat
  \/ abstract_loop soup selectors abstract0
     = default abstract0
         (last (AbstractSpec.cleaned_matches soup selectors)).
Proof.
  revert abstract0.
  induction selectors as [|selector rest IH]; intros abstract0; [by right|].
  cbn [abstract_loop AbstractSpec.cleaned_matches omap list_omap].
  destruct (select_one soup selector) as [text|]; cbn [fmap option_fmap option_map].
  - fold (AbstractSpec.cleaned text).
    destruct (50 <? String.length (AbstractSpec.cleaned text))%nat eqn:Hlen.
    + left. by apply Nat.ltb_lt.
    + destruct (IH (AbstractSpec.cleaned text)) as [Hlong|Heq]; [by left|].
      right. rewrite Heq.
      fold (AbstractSpec.cleaned_matches soup rest).
      rewrite last_cons. by destruct (last _).
  - apply IH.
Qed.

(** C5. [scrape_paper] always returns; a record it returns has a
    non-empty title and a non-empty abstract; and a fetched page on
    which the title or the abstract stays empty after every strategy
    is rejected: the result is [None], not a record. *)
Theorem record_has_title_and_abstract (url : string) (year : Z) (w : World) :
  (exists r w', scrape_paper self url year w = (Ok r, w'))
  /\ (forall p w',
        scrape_paper self url year w = (Ok (Some p), w') ->
        title p <> EmptyString /\ abstract p <> EmptyString)
  /\ (forall content w',
        get_cached_or_fetch self url (Some (paper_cache_key url)) w
        = (Ok (Some content), w') ->
        extract_title (BeautifulSoup content) = EmptyString
        \/ extract_abstract (BeautifulSoup content) = EmptyString ->
        scrape_paper self url year w = (Ok None, w')).
Proof.
  unfold scrape_paper, mbind, M_bind, mret, M_ret.
  destruct (get_cached_or_fetch_ok self url (Some (paper_cache_key url)) w)
    as (o & w1 & ->).
  destruct o as [content|]; simpl.
  - destruct (truthy content) eqn:Hc; simpl.
    + destruct (extract content url year) as [e|r] eqn:Hx.
      * split; [by eauto|]. split; [by intros p w' [=]|].
        by intros c w' [= <- <-] _.
      * split; [by eauto|]. split.
        -- intros p w' [= -> <-].
           apply extract_Some in Hx as (pdf & supp & _ & Ht & Ha & ->).
           simpl. by rewrite <- !truthy_true.
        -- intros c w' [= <- <-] Hempty.
           destruct (extract_rejects content url year Hempty) as [Hr|[e Hr]];
             congruence.
    + split; [by eauto|]. split; [by intros p w' [=]|].
      by intros c w' [= <- <-] _.
  - split; [by eauto|]. split; [by intros p w' [=]|]. by intros c w' [=].
Qed.





End FieldExtractorFacts.

Section FieldExtractorExamples.
Import Fixture.

(** On the site: document [doc_a] gives a record with both fields,
    document [doc_n], whose title is empty once the venue note is cut
    off, is rejected. *)
Lemma record_has_title_and_abstract_witness :
  (title paper_a <> EmptyString /\ abstract paper_a <> EmptyString)
  /\ scrape_paper (E:=env1) only_2015 doc_n 2015 empty_world
     = (Ok None,
        (get_cached_or_fetch (E:=env1) only_2015 doc_n
           (Some (paper_cache_key (E:=env1) doc_n)) empty_world).2).
Proof.
  split.
  - destruct (record_has_title_and_abstract (E:=env1) only_2015 doc_a 2015 empty_world)
      as (_ & H & _).
    apply (H paper_a (scrape_paper (E:=env1) only_2015 doc_a 2015 empty_world).2).
    vm_compute. reflexivity.
  - destruct (record_has_title_and_abstract (E:=env1) only_2015 doc_n 2015 empty_world)
      as (_ & _ & H).
    apply (H "<doc n>").
    + vm_compute. reflexivity.
    + left. vm_compute. reflexivity.
Defined.


(** C2, the code at a page whose only abstract block is short. The
    block [.abstract] of [doc_c] reads "Abstract: Too short."; the
    selector loop ends with the ten characters left of it in its
    variable, the paragraph fallback is skipped because the variable
    is not empty, and the record carries them as its abstract. *)
Theorem short_selector_abstract_is_retained :
  select_one (BeautifulSoup (Env:=env1) "<doc c>") ".abstract"
  = Some "Abstract: Too short."
  /\ abstract_loop (BeautifulSoup (Env:=env1) "<doc c>") abstract_selectors
       EmptyString = "Too short."
  /\ (scrape_paper (E:=env1) only_2015 doc_c 2015 empty_world).1 = Ok (Some paper_c)
  /\ abstract paper_c = "Too short."
  /\ (String.length (abstract paper_c) <= 50)%nat.
Proof. vm_compute. repeat split; try reflexivity. lia. Qed.

(** C3, the code in two processes. Under the secret of seed 1 and
    under the secret of seed 2 the same URL gets two different cache
    keys; so a second run on the cache directory the first run left
    requests the document again, where a run with the first secret is
    served from the cache. *)
Theorem document_cache_key_differs_across_runs :
  paper_cache_key (E:=env1) doc_a = "paper_-8765865074683571276"
  /\ paper_cache_key (E:=env2) doc_a = "paper_8177905704161382641"
  /\ paper_cache_key (E:=env2) doc_a <> paper_cache_key (E:=env1) doc_a
  /\ requests first_run = [doc_a]
  /\ requests
       (scrape_paper (E:=env1) only_2015 doc_a 2015 (next_run first_run)).2 = []
  /\ requests
       (scrape_paper (E:=env2) only_2015 doc_a 2015 (next_run first_run)).2
     = [doc_a].
Proof.
  vm_compute. repeat split; try reflexivity. intros H. discriminate H.
Qed.

End FieldExtractorExamples.

(** ** The partition scheduler *)

Section SchedulerFacts.
Context {E : Env}.
Variable self : CVPRScraperAsync.

Import RunSpec.

Lemma add_log_nil (w : World) : add_log w [] = w.
Proof. destruct w. unfold add_log. simpl. by rewrite app_nil_r. Qed.

Lemma add_log_app (w : World) (a b : list event) :
  add_log (add_log w a) b = add_log w (a ++ b).
Proof. unfold add_log. simpl. by rewrite app_assoc. Qed.

Lemma marks_app (a b : list event) : marks (a ++ b) = marks a ++ marks b.
Proof.
  induction a as [|[] a IH]; simpl; by rewrite ?IH.
Qed.

(** *** Which computations write to the log *)

Lemma keeps_log_ret {A} (a : A) : keeps_log (mret a).
Proof. by intros w. Qed.

Lemma keeps_log_raise {A} (e : exn) : keeps_log (@raise A e).
Proof. by intros w. Qed.

Lemma keeps_log_hang {A} : keeps_log (@hang A).
Proof. by intros w. Qed.

Lemma keeps_log_lift {A} (r : exn + A) : keeps_log (lift r).
Proof. by destruct r; intros w. Qed.

Lemma keeps_log_bind {A B} (m : M A) (f : A -> M B) :
  keeps_log m -> (forall a, keeps_log (f a)) -> keeps_log (m ≫= f).
Proof.
  intros Hm Hf w. unfold mbind, M_bind. specialize (Hm w).
  destruct (m w) as [[a|e|] w']; simpl in *; [|done|done].
  rewrite <- Hm. apply Hf.
Qed.

Lemma keeps_log_mapM {A B} (f : A -> M B) (l : list A) :
  (forall a, keeps_log (f a)) -> keeps_log (mapM f l).
Proof.
  intros Hf. induction l as [|x l IH]; simpl.
  - apply keeps_log_ret.
  - apply keeps_log_bind; [apply Hf|]. intros y.
    apply keeps_log_bind; [apply IH|]. intros ys. apply keeps_log_ret.
Qed.

Lemma keeps_log_fetch (url : string) (k : option string) :
  keeps_log (get_cached_or_fetch self url k).
Proof.
  unfold get_cached_or_fetch.
  apply keeps_log_bind.
  { destruct (use_cache self); [by intros w | apply keeps_log_ret]. }
  intros [content|]; [apply keeps_log_ret|].
  apply keeps_log_bind; [by intros w|].
  intros [st c|e]; [|apply keeps_log_ret].
  destruct (st =? 200)%Z; [|apply keeps_log_ret].
  apply keeps_log_bind; [|intros; apply keeps_log_ret].
  destruct (use_cache self); [by intros w | apply keeps_log_ret].
Qed.

Lemma keeps_log_discovery (year : Z) :
  keeps_log (get_paper_urls_for_year self year).
Proof.
  unfold get_paper_urls_for_year.
  apply keeps_log_bind; [apply keeps_log_fetch|].
  intros [content|]; [|apply keeps_log_ret].
  destruct (negb (PyStr.truthy content)); [apply keeps_log_ret|].
  apply keeps_log_bind; [|intros; apply keeps_log_ret].
  destruct (year <=? 2015)%Z; [apply keeps_log_lift|].
  apply keeps_log_bind; [apply keeps_log_lift|]. intros found.
  apply keeps_log_bind; [apply keeps_log_fetch|]. intros listing.
  destruct (PyStr.truthy_opt listing);
    [apply keeps_log_lift | apply keeps_log_ret].
Qed.

Lemma keeps_log_scrape_paper (url : string) (year : Z) :
  keeps_log (scrape_paper self url year).
Proof.
  unfold scrape_paper.
  apply keeps_log_bind; [apply keeps_log_fetch|]. intros content.
  destruct (negb (PyStr.truthy_opt content)); [apply keeps_log_ret|].
  destruct (extract _ _ _); apply keeps_log_ret.
Qed.

(** A partition's coroutine writes one line when it returns, the
    line that reports it finished, and none otherwise. *)
Lemma scrape_year_log (y : Z) (w : World) :
  exists l,
    log (scrape_year self y w).2 = log w ++ l
    /\ marks l = (if is_ok (scrape_year self y w).1 then [Completed y] else [])
    /\ (is_ok (scrape_year self y w).1 = false -> l = []).
Proof.
  unfold scrape_year, mbind, M_bind.
  pose proof (keeps_log_discovery y w) as Hd.
  destruct (get_paper_urls_for_year self y w) as [[urls|e|] w1]; simpl in *;
    [|exists []; by rewrite app_nil_r|exists []; by rewrite app_nil_r].
  destruct urls as [|u urls].
  { exists [NoUrls y]. simpl. by rewrite Hd. }
  unfold Semaphore.
  destruct (max_concurrent self <? 0)%Z; cbn -[mapM];
    [exists []; by rewrite app_nil_r|].
  destruct (max_concurrent self =? 0)%Z; cbn -[mapM];
    [exists []; by rewrite app_nil_r|].
  pose proof (keeps_log_mapM (fun url => scrape_paper self url y) (u :: urls)
                (fun a => keeps_log_scrape_paper a y) w1) as Hm.
  destruct (mapM _ (u :: urls) w1) as [[rs|e|] w2]; cbn -[mapM] in *;
    [|exists []; rewrite app_nil_r; split; [congruence|done]
     |exists []; rewrite app_nil_r; split; [congruence|done]].
  eexists [_]. split; [rewrite Hm, Hd; reflexivity|done].
Qed.

(** *** The two loops of [scrape_all_years] *)

Lemma merge_loop_spec (zipped : list (Z * (exn + list Paper)))
      (acc : list Paper) (w : World) :
  merge_loop zipped acc w
  = (Ok (acc ++ concat (map (fun z => contribution z.2) zipped)),
     add_log w (merge_events zipped acc)).
Proof.
  revert acc w.
  induction zipped as [|[y [e|ps]] rest IH]; intros acc w; simpl.
  - by rewrite app_nil_r, add_log_nil.
  - unfold mbind, M_bind, emit. rewrite IH. f_equal.
    unfold add_log. simpl. by rewrite <- app_assoc.
  - unfold mbind, M_bind, save_papers_json_async, emit. rewrite IH.
    f_equal; [by rewrite app_assoc|].
    unfold add_log. simpl. by rewrite <- app_assoc.
Qed.


Lemma run_tasks_spec (order : list Z) (w : World) done (w1 : World) :
  run_tasks self order w = (done, w1) ->
  map fst done = order
  /\ exists l,
       log w1 = log w ++ l
       /\ marks l
          = map (fun d => Completed d.1)
                (filter (fun d => is_ok d.2 = true) done).
Proof.
  revert w done w1.
  induction order as [|y rest IH]; intros w done w1; simpl.
  { intros [= <- <-]. split; [done|]. exists []. by rewrite app_nil_r. }
  destruct (scrape_year_log y w) as (l1 & Hl1 & Hm1 & _).
  destruct (scrape_year self y w) as [r w'].
  destruct (run_tasks self rest w') as [rs w''] eqn:Hr.
  intros [= <- <-].
  apply IH in Hr as (Hfst & l2 & Hl2 & Hm2). simpl in *.
  split; [by rewrite Hfst|].
  exists (l1 ++ l2). split; [by rewrite Hl2, Hl1, app_assoc|].
  rewrite marks_app, Hm1, Hm2, filter_cons. simpl.
  destruct (is_ok r); by simpl.
Qed.



Lemma sequential_loop_app (l1 l2 : list Z) (acc : list Paper) (w : World) :
  sequential_loop self (l1 ++ l2) acc w
  = (sequential_loop self l1 acc ≫= sequential_loop self l2) w.
Proof.
  revert acc w. induction l1 as [|y l1 IH]; intros acc w; simpl; [done|].
  unfold mbind, M_bind.
  destruct (scrape_year self y w) as [[ps|e|] w1]; [|done|done].
  unfold save_papers_json_async, emit. rewrite IH. done.
Qed.


Lemma scrape_all_years_sequential (w : World) :
  parallel_years self = false ->
  scrape_all_years self w = sequential_loop self (years self) [] w.
Proof. intros Hp. unfold scrape_all_years. by rewrite Hp. Qed.



(** C9. With parallel mode off, an exception raised by a partition's
    [scrape_year] leaves [scrape_all_years] as it is: the run ends
    with that exception in the very state in which the partition
    raised it, so no later partition is started and nothing more is
    logged or saved. *)
Theorem sequential_exception_aborts_run
        (pre post : list Z) (y : Z) (acc : list Paper) (e : exn)
        (w w1 w2 : World) :
  parallel_years self = false ->
  years self = pre ++ y :: post ->
  sequential_loop self pre [] w = (Ok acc, w1) ->
  scrape_year self y w1 = (Raise e, w2) ->
  scrape_all_years self w = (Raise e, w2) /\ log w2 = log w1.
Proof.
  intros Hp Hys Hpre Hy. split.
  - rewrite scrape_all_years_sequential by done.
    rewrite Hys, sequential_loop_app. unfold mbind, M_bind.
    rewrite Hpre. simpl. unfold mbind, M_bind. by rewrite Hy.
  - destruct (scrape_year_log y w1) as (l & Hl & _ & Hnil).
    rewrite Hy in Hl, Hnil. simpl in *.
    rewrite Hl, Hnil by done. by rewrite app_nil_r.
Qed.



End SchedulerFacts.

Section SchedulerExamples.
Import Fixture RunSpec.

(** On the site, partitions 2015 to 2017 one at a time: discovery of
    2016 raises, the run ends there with the one checkpoint of 2015. *)
Lemma sequential_exception_aborts_run_witness :
  (scrape_all_years (E:=env1) three_sequential empty_world
   = (Raise (ValueError "Invalid IPv6 URL"), raised_2016)
   /\ log raised_2016 = log after_2015)
  /\ marks (log raised_2016)
     = [Completed 2015; Checkpoint "cvpr_abstracts_partial_2015.json"].
Proof.
  split.
  - apply (sequential_exception_aborts_run (E:=env1) three_sequential
             [2015%Z] [2017%Z] 2016 [paper_a; paper_c]).
    + reflexivity.
    + vm_compute. reflexivity.
    + vm_compute. reflexivity.
    + vm_compute. reflexivity.
  - vm_compute. reflexivity.
Defined.




End SchedulerExamples.

(** ** The admission gate *)

Section GateFacts.
Import Gate.
Variable self : CVPRScraperAsync.

Local Open Scope Z_scope.

Lemma start_balanced (urls : list string) :
  0 <= max_concurrent self -> balanced self (start self urls).
Proof. intros H. unfold balanced, start. simpl. lia. Qed.

Lemma acquire_balanced (p p' : partition) :
  balanced self p -> acquire p = Some p' -> balanced self p'.
Proof.
  unfold balanced, acquire. intros [H0 Hsum].
  destruct (waiting p) as [|u rest]; [done|].
  destruct (0 <? sem_value p) eqn:Hpos; [|done].
  apply Z.ltb_lt in Hpos. intros [= <-]. simpl. lia.
Qed.

Lemma release_balanced (j : nat) (p p' : partition) :
  balanced self p -> release j p = Some p' -> balanced self p'.
Proof.
  unfold balanced, release. intros [H0 Hsum].
  destruct (in_flight p !! j) as [u|] eqn:Hj; [|done].
  intros [= <-]. simpl.
  rewrite length_delete by eauto.
  apply lookup_lt_Some in Hj. lia.
Qed.

Lemma exec_balanced (a : action) (ps ps' : list partition) :
  Forall (balanced self) ps -> exec a ps = Some ps' ->
  Forall (balanced self) ps' /\ length ps' = length ps.
Proof.
  intros Hall. destruct a as [i|i j]; simpl.
  - destruct (ps !! i) as [p|] eqn:Hi; simpl; [|done].
    destruct (acquire p) as [p'|] eqn:Hp; simpl; [|done].
    intros [= <-]. split; [|by rewrite length_insert].
    apply Forall_insert; [done|].
    eapply acquire_balanced; [|done].
    by eapply Forall_lookup_1.
  - destruct (ps !! i) as [p|] eqn:Hi; simpl; [|done].
    destruct (release j p) as [p'|] eqn:Hp; simpl; [|done].
    intros [= <-]. split; [|by rewrite length_insert].
    apply Forall_insert; [done|].
    eapply release_balanced; [|done].
    by eapply Forall_lookup_1.
Qed.

Lemma run_balanced (schedule : list action) (ps ps' : list partition) :
  Forall (balanced self) ps -> run schedule ps = Some ps' ->
  Forall (balanced self) ps' /\ length ps' = length ps.
Proof.
  revert ps. induction schedule as [|a rest IH]; intros ps Hall; simpl.
  { by intros [= <-]. }
  destruct (exec a ps) as [ps1|] eqn:Ha; simpl; [|done].
  apply exec_balanced in Ha as [Hall1 Hlen1]; [|done].
  intros Hrun. apply IH in Hrun as [Hall' Hlen']; [|done].
  split; [done|]. congruence.
Qed.



End GateFacts.

Section GateExamples.
Import Fixture Gate.



End GateExamples.

(** ** The cache file under concurrent coroutines *)

Section CacheRaceFacts.
Import CacheRace.
Variables (key content : string) (nput nget : nat) (d0 : gmap string string).

Lemma drop_all (s : string) : PyStr.drop (String.length s) s = EmptyString.
Proof. induction s as [|c s IH]; simpl; done. Qed.

Lemma append_empty (s : string) : s +:+ EmptyString = s.
Proof.
  induction s as [|c s IH]; [done|].
  change (String c (s +:+ EmptyString) = String c s). by rewrite IH.
Qed.

Lemma overlay_empty (s : string) : overlay s EmptyString = s.
Proof.
  unfold overlay. destruct (String.length s); simpl; apply append_empty.
Qed.

Lemma overlay_same (s : string) : overlay s s = s.
Proof. unfold overlay. rewrite drop_all. apply append_empty. Qed.

(** The steps of [put] alone amount to the write of the sequential
    model: the cache file ends up holding the text. *)
Lemma put_ops_alone (d : gmap string string) :
  (fold_left (fun ds o => exec_op o ds.1 ds.2) (put_ops key content) (d, [])).1
  = <[cache_file key := content]> d.
Proof.
  simpl. rewrite lookup_insert_eq. simpl. rewrite overlay_empty.
  by rewrite insert_insert_eq.
Qed.

Lemma initial_well_formed :
  well_formed key content nput (pool (initial key content nput nget d0)).
Proof.
  intros i t. simpl. destruct (i <? nput)%nat eqn:Hi.
  - apply Nat.ltb_lt in Hi.
    rewrite lookup_app_l by (by rewrite length_replicate).
    intros [-> _]%lookup_replicate. by left.
  - apply Nat.ltb_ge in Hi.
    rewrite lookup_app_r by (by rewrite length_replicate).
    intros [-> _]%lookup_replicate. by left.
Qed.

Lemma initial_phase :
  phase key content nput d0 (initial key content nput nget d0).
Proof.
  apply Fresh; [done|]. intros i Hi. simpl.
  rewrite lookup_app_l by (by rewrite length_replicate).
  by apply lookup_replicate_2.
Qed.

Lemma well_formed_insert (pl : list (list op)) (i : nat) (t : list op) :
  well_formed key content nput pl ->
  (if (i <? nput)%nat
   then t = put_ops key content \/ t = opened key content \/ t = []
   else t = get_ops key \/ t = []) ->
  well_formed key content nput (<[i := t]> pl).
Proof.
  intros Hwf Ht j u. rewrite list_lookup_insert.
  case_decide as Hd; [|apply Hwf].
  destruct Hd as [<- _]. by intros [= <-].
Qed.

(** One step keeps the coroutines in shape and the file in one of its
    three conditions, and what a read returns is observable. *)
Lemma step_invariant (i : nat) (st st' : state) :
  well_formed key content nput (pool st) ->
  phase key content nput d0 st ->
  Forall (observable key content d0) (seen st) ->
  step i st = Some st' ->
  well_formed key content nput (pool st')
  /\ phase key content nput d0 st'
  /\ Forall (observable key content d0) (seen st').
Proof.
  intros Hwf Hph Hseen. unfold step.
  destruct (pool st !! i) as [[|o rest]|] eqn:Hi; try done.
  pose proof (Hwf i _ Hi) as Ht.
  assert (i < length (pool st))%nat as Hlen by (by eapply lookup_lt_Some).
  destruct (i <? nput)%nat eqn:Hput.
  - destruct Ht as [Ht|[Ht|Ht]]; [| |done].
    + (* the store opens the file *)
      injection Ht as -> ->. simpl. intros [= <-]. simpl.
      split; [|split; [|done]].
      * apply well_formed_insert; [done|]. rewrite Hput. by right; left.
      * apply Torn; simpl; [by rewrite lookup_insert_eq|].
        exists i. by rewrite list_lookup_insert_eq.
    + (* the store writes the text *)
      injection Ht as -> ->. simpl. intros [= <-]. simpl.
      split; [|split; [|done]].
      * apply well_formed_insert; [done|]. rewrite Hput. by right; right.
      * apply Full. simpl. rewrite lookup_insert_eq. f_equal.
        destruct Hph as [Hd Hall|Hd _|Hd].
        -- apply Nat.ltb_lt in Hput. rewrite (Hall i Hput) in Hi. done.
        -- rewrite Hd. simpl. apply overlay_empty.
        -- rewrite Hd. simpl. apply overlay_same.
  - destruct Ht as [Ht|Ht]; [|done].
    (* a look-up reads the file *)
    injection Ht as -> ->. simpl. intros [= <-]. simpl.
    split; [|split].
    + apply well_formed_insert; [done|]. rewrite Hput. by right.
    + destruct Hph as [Hd Hall|Hd [j Hj]|Hd].
      * apply Fresh; [done|]. intros j Hj. simpl.
        rewrite list_lookup_insert_ne; [by apply Hall|].
        apply Nat.ltb_ge in Hput. lia.
      * apply Torn; [done|]. exists j. simpl.
        rewrite list_lookup_insert_ne; [done|].
        intros <-. rewrite Hi in Hj. done.
      * by apply Full.
    + apply Forall_app. split; [done|]. apply Forall_singleton.
      unfold observable.
      destruct Hph as [Hd _|Hd _|Hd]; rewrite Hd; auto.
Qed.



End CacheRaceFacts.

Section CacheRaceExamples.
Import Fixture CacheRace.



End CacheRaceExamples.

(** * Further properties of the pipeline *)

(** ** The fetcher *)

Section FetcherExtras.
Context {E : Env}.
Variable self : CVPRScraperAsync.

Import PyStr PipelineSpec.

Lemma get_cached_or_fetch_failure (url key : string) (w : World) :
  (use_cache self = true -> cache w !! cache_file key = None) ->
  (forall content, http_get url <> Response 200 content) ->
  get_cached_or_fetch self url (Some key) w
  = (Ok None, mkWorld (cache w) (requests w ++ [url]) (log w)).
Proof.
  intros Hmiss Hbad.
  unfold get_cached_or_fetch, mbind, M_bind, mret, M_ret, cache_get,
    session_get, cache_put.
  assert (forall w', match http_get url with
                     | Response st c =>
                         if (st =? 200)%Z
                         then (if use_cache self
                               then (Ok (Some c),
                                     mkWorld (<[cache_file key := c]> (cache w'))
                                             (requests w') (log w'))
                               else (Ok (Some c), w'))
                         else (Ok None, w')
                     | TransportError _ => (Ok None, w')
                     end = (Ok None, w')) as Hresp.
  { intros w'. destruct (http_get url) as [st c|e] eqn:Hr; [|done].
    destruct (st =? 200)%Z eqn:Hst; [|done].
    apply Z.eqb_eq in Hst as ->. by destruct (Hbad c). }
  destruct (use_cache self) eqn:Hc; simpl.
  - rewrite Hmiss by done. simpl.
    specialize (Hresp (mkWorld (cache w) (requests w ++ [url]) (log w))).
    destruct (http_get url) as [st c|e]; [|done].
    destruct (st =? 200)%Z; [|done]. simpl in *. by injection Hresp.
  - specialize (Hresp (mkWorld (cache w) (requests w ++ [url]) (log w))).
    destruct (http_get url) as [st c|e]; [|done].
    destruct (st =? 200)%Z; [|done]. simpl in *. done.
Qed.


(** X2. With the cache switched off the fetcher neither reads nor
    writes the cache directory: every call makes one request, also for
    a page that is in the cache, and the directory stays as it was. *)
Theorem uncached_fetch_always_requests
        (url : string) (k : option string) (w : World) :
  use_cache self = false ->
  get_cached_or_fetch self url k w
  = (Ok match http_get url with
        | Response st content => if (st =? 200)%Z then Some content else None
        | TransportError _ => None
        end,
     mkWorld (cache w) (requests w ++ [url]) (log w)).
Proof.
  intros Hc.
  unfold get_cached_or_fetch, mbind, M_bind, mret, M_ret, session_get.
  rewrite Hc. simpl.
  destruct (http_get url) as [st c|e]; [|done].
  by destruct (st =? 200)%Z.
Qed.


Lemma replace_no_slash_colon (url : string) :
  contains "/" (default_key url) = false
  /\ contains ":" (default_key url) = false
  /\ String.length (default_key url) = String.length url.
Proof.
  unfold default_key.
  induction url as [|c url (IH1 & IH2 & IH3)]; [done|].
  cbn [replace contains startswith String.length].
  rewrite IH1, IH2, IH3.
  destruct (Ascii.eqb_spec c "/") as [->|Hs]; [done|].
  destruct (Ascii.eqb_spec c ":") as [->|Hc]; [done|].
  destruct (Ascii.eqb_spec "/" c) as [<-|_]; [done|].
  destruct (Ascii.eqb_spec ":" c) as [<-|_]; done.
Qed.

(** X4. Called without a cache key, the fetcher uses the key it
    derives from the URL: the URL with every slash and every colon
    replaced by an underscore, hence a key of the URL's length with no
    slash and no colon in it. *)
Theorem default_key_has_no_separator (url : string) (w : World) :
  get_cached_or_fetch self url None w
  = get_cached_or_fetch self url (Some (default_key url)) w
  /\ contains "/" (default_key url) = false
  /\ contains ":" (default_key url) = false
  /\ String.length (default_key url) = String.length url.
Proof. split; [done|]. apply replace_no_slash_colon. Qed.

End FetcherExtras.

Section FetcherExtrasExamples.
Import Fixture Site.


(** On the site: [doc_a] is in the cache a first run left, and the
    scraper without cache requests it all the same. *)
Lemma uncached_fetch_always_requests_witness :
  cache first_run !! cache_file (paper_cache_key (E:=env1) doc_a)
  = Some "<doc a>"
  /\ get_cached_or_fetch (E:=env1) uncached_2015 doc_a
       (Some (paper_cache_key (E:=env1) doc_a)) (next_run first_run)
     = (Ok (Some "<doc a>"), mkWorld (cache first_run) [doc_a] []).
Proof.
  split; [vm_compute; reflexivity|].
  rewrite (uncached_fetch_always_requests (E:=env1) uncached_2015 doc_a
             (Some (paper_cache_key (E:=env1) doc_a)) (next_run first_run))
    by reflexivity.
  vm_compute. reflexivity.
Defined.


End FetcherExtrasExamples.

(** ** URL discovery *)

Section DiscoveryExtras.
Context {E : Env}.
Variable self : CVPRScraperAsync.

Import PyStr PipelineSpec.

Lemma collect_old_spec (base : string) (links : list (string * string))
      (urls : list string) :
  collect_old base links = inr urls ->
  forall u, u ∈ urls <->
            exists href txt, (href, txt) ∈ links
                             /\ flat_link href = true
                             /\ urljoin base href = inr u.
Proof.
  revert urls. induction links as [|[href txt] rest IH]; intros urls;
    cbn [collect_old collect_new].
  { intros [= <-] u. split; [by intros ?%elem_of_nil|].
    by intros (? & ? & ?%elem_of_nil & _). }
  fold (flat_link href).
  destruct (flat_link href) eqn:Hq.
  - destruct (urljoin base href) as [e|full] eqn:Hu; [done|].
    destruct (collect_old base rest) as [e|us] eqn:Hrest; [done|].
    cbn [try_map]. intros [= <-] u. rewrite elem_of_cons, (IH us eq_refl u). split.
    + intros [->|(h & t & Hin & Hf & Hj)].
      * exists href, txt. split; [left|done].
      * exists h, t. split; [by right|done].
    + intros (h & t & Hin & Hf & Hj).
      apply elem_of_cons in Hin as [[= -> ->]|Hin].
      * left. congruence.
      * right. by exists h, t.
  - intros Hrest u. rewrite (IH urls Hrest u). split.
    + intros (h & t & Hin & Hf & Hj). exists h, t. split; [by right|done].
    + intros (h & t & Hin & Hf & Hj).
      apply elem_of_cons in Hin as [[= -> ->]|Hin]; [congruence|].
      by exists h, t.
Qed.

Lemma collect_new_spec (year : Z) (page : string)
      (links : list (string * string)) (urls : list string) :
  collect_new year page links = inr urls ->
  forall u, u ∈ urls <->
            exists href txt, (href, txt) ∈ links
                             /\ listing_link year href = true
                             /\ urljoin page href = inr u.
Proof.
  revert urls. induction links as [|[href txt] rest IH]; intros urls;
    cbn [collect_old collect_new].
  { intros [= <-] u. split; [by intros ?%elem_of_nil|].
    by intros (? & ? & ?%elem_of_nil & _). }
  fold (listing_link year href).
  destruct (listing_link year href) eqn:Hq.
  - destruct (urljoin page href) as [e|full] eqn:Hu; [done|].
    destruct (collect_new year page rest) as [e|us] eqn:Hrest; [done|].
    cbn [try_map]. intros [= <-] u. rewrite elem_of_cons, (IH us eq_refl u). split.
    + intros [->|(h & t & Hin & Hf & Hj)].
      * exists href, txt. split; [left|done].
      * exists h, t. split; [by right|done].
    + intros (h & t & Hin & Hf & Hj).
      apply elem_of_cons in Hin as [[= -> ->]|Hin].
      * left. congruence.
      * right. by exists h, t.
  - intros Hrest u. rewrite (IH urls Hrest u). split.
    + intros (h & t & Hin & Hf & Hj). exists h, t. split; [by right|done].
    + intros (h & t & Hin & Hf & Hj).
      apply elem_of_cons in Hin as [[= -> ->]|Hin]; [congruence|].
      by exists h, t.
Qed.

Lemma elem_of_list_set (u : string) (l : list string) :
  u ∈ list_set l <-> u ∈ l.
Proof. unfold list_set. apply elem_of_remove_dups. Qed.

(** Discovery on the flat layout, once the index page is at hand. *)
Lemma discovery_flat (year : Z) (content : string) (w w1 : World) :
  (year <= 2015)%Z ->
  get_cached_or_fetch self (index_url year) (Some (main_key year)) w
  = (Ok (Some content), w1) ->
  content <> EmptyString ->
  get_paper_urls_for_year self year w
  = match collect_old (index_url year) (find_all_a (BeautifulSoup content)) with
    | inl e => (Raise e, w1)
    | inr urls => (Ok (list_set urls), w1)
    end.
Proof.
  intros Hy Hf Hne. unfold get_paper_urls_for_year, index_url, main_key in *.
  apply Z.leb_le in Hy. rewrite Hy in *.
  unfold mbind, M_bind. rewrite Hf.
  destruct content as [|c content]; [done|]. simpl.
  by destruct (collect_old _ _).
Qed.

(** Discovery on the two-hop layout, once both pages are at hand. *)
Lemma discovery_listing (year : Z) (content listing page : string)
      (found : option string) (w w1 w2 : World) :
  (2015 < year)%Z ->
  get_cached_or_fetch self (index_url year) (Some (main_key year)) w
  = (Ok (Some content), w1) ->
  content <> EmptyString ->
  find_papers_page (index_url year) (find_all_a (BeautifulSoup content))
  = inr found ->
  page = (if truthy_opt found then default EmptyString found
          else default_listing_url year) ->
  get_cached_or_fetch self page (Some (listing_key year)) w1
  = (Ok (Some listing), w2) ->
  listing <> EmptyString ->
  get_paper_urls_for_year self year w
  = match collect_new year page (find_all_a (BeautifulSoup listing)) with
    | inl e => (Raise e, w2)
    | inr urls => (Ok (list_set urls), w2)
    end.
Proof.
  intros Hy Hf Hne Hfound -> Hl Hlne.
  unfold get_paper_urls_for_year, index_url, main_key, listing_key,
    default_listing_url in *.
  assert ((year <=? 2015)%Z = false) as Hy' by (apply Z.leb_gt; lia).
  rewrite Hy' in *.
  unfold mbind, M_bind. rewrite Hf.
  destruct content as [|c content]; [done|]. simpl.
  rewrite Hfound. simpl. rewrite Hl.
  destruct listing as [|c' listing]; [done|]. simpl.
  by destruct (collect_new _ _ _).
Qed.

(** Whatever discovery returns, it is a list without repetition. *)
Lemma discovery_result (year : Z) (w w' : World) (urls : list string) :
  get_paper_urls_for_year self year w = (Ok urls, w') -> NoDup urls.
Proof.
  unfold get_paper_urls_for_year, mbind, M_bind, mret, M_ret.
  destruct (get_cached_or_fetch self _ _ w) as [[[content|]|e|] w1];
    try done; [|intros [= <- _]; constructor].
  destruct (negb (truthy content)); [intros [= <- _]; constructor|].
  destruct (year <=? 2015)%Z.
  - destruct (collect_old _ _) as [e|us]; simpl; [done|].
    intros [= <- _]. apply NoDup_remove_dups.
  - destruct (find_papers_page _ _) as [e|found]; simpl; [done|].
    destruct (get_cached_or_fetch self _ _ w1) as [[listing|e|] w2];
      try done.
    destruct (truthy_opt listing).
    + destruct (collect_new _ _ _) as [e|us]; simpl; [done|].
      intros [= <- _]. apply NoDup_remove_dups.
    + simpl. intros [= <- _]. constructor.
Qed.

(** X5. The list of document URLs that discovery returns holds every
    URL once, however many links of the page lead to it. *)
Theorem discovered_urls_are_distinct
        (year : Z) (w w' : World) (urls : list string) :
  get_paper_urls_for_year self year w = (Ok urls, w') -> NoDup urls.
Proof. apply discovery_result. Qed.

(** X6. Flat layout (partitions up to 2015). With the index page at
    hand, discovery returns exactly the URLs that [urljoin] gives, from
    the index URL, for the links whose target ends in the HTML
    extension, holds an underscore and does not start with http;
    nothing else is requested. *)
Theorem flat_discovery_takes_the_qualifying_links
        (year : Z) (content : string) (w w1 w' : World) (urls : list string) :
  (year <= 2015)%Z ->
  get_cached_or_fetch self (index_url year) (Some (main_key year)) w
  = (Ok (Some content), w1) ->
  content <> EmptyString ->
  get_paper_urls_for_year self year w = (Ok urls, w') ->
  w' = w1
  /\ forall u, u ∈ urls <->
               exists href txt,
                 (href, txt) ∈ find_all_a (BeautifulSoup content)
                 /\ flat_link href = true
                 /\ urljoin (index_url year) href = inr u.
Proof.
  intros Hy Hf Hne Hrun.
  rewrite (discovery_flat year content w w1) in Hrun by done.
  destruct (collect_old _ _) as [e|us] eqn:Hc; [done|].
  injection Hrun as <- <-. split; [done|]. intros u.
  rewrite elem_of_list_set. by apply collect_old_spec.
Qed.

(** X7. Two-hop layout (partitions after 2015). With the landing page
    and the listing page at hand, discovery returns exactly the URLs
    that [urljoin] gives, from the listing page's URL, for the links of
    the listing whose target holds the partition marker together with
    the document-page marker, or the partition-scoped prefix together
    with the HTML extension. *)
Theorem listing_discovery_takes_the_qualifying_links
        (year : Z) (content listing page : string) (found : option string)
        (w w1 w2 w' : World) (urls : list string) :
  (2015 < year)%Z ->
  get_cached_or_fetch self (index_url year) (Some (main_key year)) w
  = (Ok (Some content), w1) ->
  content <> EmptyString ->
  find_papers_page (index_url year) (find_all_a (BeautifulSoup content))
  = inr found ->
  page = (if truthy_opt found then default EmptyString found
          else default_listing_url year) ->
  get_cached_or_fetch self page (Some (listing_key year)) w1
  = (Ok (Some listing), w2) ->
  listing <> EmptyString ->
  get_paper_urls_for_year self year w = (Ok urls, w') ->
  w' = w2
  /\ forall u, u ∈ urls <->
               exists href txt,
                 (href, txt) ∈ find_all_a (BeautifulSoup listing)
                 /\ listing_link year href = true
                 /\ urljoin page href = inr u.
Proof.
  intros Hy Hf Hne Hfound Hpage Hl Hlne Hrun.
  rewrite (discovery_listing year content listing page found w w1 w2)
    in Hrun by done.
  destruct (collect_new _ _ _) as [e|us] eqn:Hc; [done|].
  injection Hrun as <- <-. split; [done|]. intros u.
  rewrite elem_of_list_set. by apply collect_new_spec.
Qed.

Lemma contains_unfold (p s : string) :
  contains p s
  = startswith p s
    || match s with EmptyString => false | String _ s' => contains p s' end.
Proof. by destruct s. Qed.

Lemma startswith_app_contains (p1 p2 s : string) :
  startswith (p1 +:+ p2) s = true -> contains p2 s = true.
Proof.
  revert s. induction p1 as [|a p1 IH]; intros s.
  - change (EmptyString +:+ p2) with p2. intros H.
    rewrite contains_unfold, H. done.
  - change (String a p1 +:+ p2) with (String a (p1 +:+ p2)).
    destruct s as [|b s]; [done|]. cbn [startswith].
    destruct (Ascii.eqb a b); [|done]. intros H%IH.
    rewrite contains_unfold, H. apply orb_true_r.
Qed.

Lemma contains_app (p1 p2 s : string) :
  contains (p1 +:+ p2) s = true -> contains p2 s = true.
Proof.
  induction s as [|c s IH]; rewrite (contains_unfold (p1 +:+ p2)).
  - rewrite orb_false_r. apply (startswith_app_contains p1).
  - intros [H|H]%orb_true_iff; [by apply (startswith_app_contains p1)|].
    rewrite contains_unfold, (IH H). apply orb_true_r.
Qed.

(** X8. The link to the full listing is the first link of the landing
    page whose text, stripped and lower-cased, contains papers; when
    the landing page has no such link, no listing URL is found (and
    discovery falls back on the constructed one). *)
Theorem first_papers_link_locates_the_listing
        (base : string) (links : list (string * string)) :
  find_papers_page base links
  = match head (filter (fun l => papers_link l.2 = true) links) with
    | Some (href, _) => try_map Some (urljoin base href)
    | None => inr None
    end.
Proof.
  induction links as [|[href txt] rest IH]; [done|].
  cbn [find_papers_page].
  destruct (papers_link txt) eqn:Hp.
  - rewrite filter_cons_True by done. cbn [head].
    unfold papers_link in Hp. by rewrite Hp, orb_true_r.
  - rewrite filter_cons_False by (cbn [snd]; congruence).
    unfold papers_link in Hp. rewrite Hp, orb_false_r.
    destruct (contains "all papers" (lower (strip txt))) eqn:Ha; [|exact IH].
    apply (contains_app "all " "papers") in Ha. congruence.
Qed.

End DiscoveryExtras.

Section DiscoveryExtrasExamples.
Import Fixture Site PipelineSpec.

(** On the site with the doubled link: two URLs, each once. *)
Lemma discovered_urls_are_distinct_witness :
  NoDup [doc_a; doc_c].
Proof.
  apply (discovered_urls_are_distinct (E:=env_dup) only_2015 2015 empty_world
           (get_paper_urls_for_year (E:=env_dup) only_2015 2015 empty_world).2).
  vm_compute. reflexivity.
Defined.

(** On the site: the index of 2015 gives its three documents; the
    absolute link to the home page is left out. *)
Lemma flat_discovery_takes_the_qualifying_links_witness :
  index_2015_fetched = index_2015_fetched
  /\ forall u, u ∈ [doc_a; doc_c; doc_n] <->
               exists href txt,
                 (href, txt) ∈ find_all_a (BeautifulSoup (Env:=env1) "<index 2015>")
                 /\ flat_link href = true
                 /\ urljoin (Env:=env1) (index_url 2015) href = inr u.
Proof.
  apply (flat_discovery_takes_the_qualifying_links (E:=env1) only_2015 2015
           "<index 2015>" empty_world index_2015_fetched index_2015_fetched).
  - lia.
  - vm_compute. reflexivity.
  - discriminate.
  - vm_compute. reflexivity.
Defined.

(** On the site: the landing page of 2017 links its listing, and the
    listing gives the one document of 2017. *)
Lemma listing_discovery_takes_the_qualifying_links_witness :
  list_2017_fetched = list_2017_fetched
  /\ forall u, u ∈ [doc_e] <->
               exists href txt,
                 (href, txt) ∈ find_all_a (BeautifulSoup (Env:=env1) "<list 2017>")
                 /\ listing_link 2017 href = true
                 /\ urljoin (Env:=env1) list_2017 href = inr u.
Proof.
  apply (listing_discovery_takes_the_qualifying_links (E:=env1) two_sequential
           2017 "<main 2017>" "<list 2017>" list_2017 (Some list_2017)
           empty_world main_2017_fetched list_2017_fetched list_2017_fetched).
  - lia.
  - vm_compute. reflexivity.
  - discriminate.
  - vm_compute. reflexivity.
  - vm_compute. reflexivity.
  - vm_compute. reflexivity.
  - discriminate.
  - vm_compute. reflexivity.
Defined.

End DiscoveryExtrasExamples.

(** ** Field extraction *)

Section FieldExtractorExtras.
Context {E : Env}.

Import PyStr PyRe PipelineSpec AbstractSpec.

(** *** White space at the ends *)

Lemma lstrip_head (s : string) :
  match lstrip s with
  | EmptyString => True
  | String c _ => isspace c = false
  end.
Proof.
  induction s as [|c s IH]; [done|]. cbn [lstrip].
  destruct (isspace c) eqn:Hc; [exact IH|exact Hc].
Qed.

Lemma lstrip_fixed (s : string) :
  match s with EmptyString => True | String c _ => isspace c = false end ->
  lstrip s = s.
Proof. destruct s as [|c s]; [done|]. cbn [lstrip]. by intros ->. Qed.

Lemma rstrip_head (c : ascii) (s : string) :
  isspace c = false -> exists r, rstrip (String c s) = String c r.
Proof.
  intros Hc. cbn [rstrip]. destruct (rstrip s) as [|a r].
  - rewrite Hc. by eexists.
  - by eexists.
Qed.

Lemma rstrip_idem (s : string) : rstrip (rstrip s) = rstrip s.
Proof.
  induction s as [|c s IH]; [done|]. cbn [rstrip].
  destruct (rstrip s) as [|a r] eqn:Hr.
  - destruct (isspace c) eqn:Hc; [done|]. cbn [rstrip]. by rewrite Hc.
  - cbn [rstrip] in IH |- *. by rewrite IH.
Qed.

Lemma strip_idem (s : string) : strip (strip s) = strip s.
Proof.
  unfold strip. pose proof (lstrip_head s) as Hh.
  destruct (lstrip s) as [|c t]; [done|].
  destruct (rstrip_head c t Hh) as [r Hr]. rewrite Hr.
  rewrite lstrip_fixed by done. by rewrite <- Hr, rstrip_idem.
Qed.

Lemma title_loop_stripped (soup : PageView) (selectors : list string)
      (title : string) :
  strip title = title ->
  strip (title_loop soup selectors title) = title_loop soup selectors title.
Proof.
  revert title. induction selectors as [|sel rest IH]; intros title Ht; [done|].
  cbn [title_loop]. destruct (select_one soup sel) as [text|]; [|by apply IH].
  destruct (truthy _); [apply strip_idem|]. apply IH, strip_idem.
Qed.

Lemma authors_loop_stripped (soup : PageView) (selectors : list string)
      (authors : string) :
  strip authors = authors ->
  strip (authors_loop soup selectors authors)
  = authors_loop soup selectors authors.
Proof.
  revert authors.
  induction selectors as [|sel rest IH]; intros authors Ha; [done|].
  cbn [authors_loop]. destruct (select_one soup sel) as [text|]; [|by apply IH].
  apply strip_idem.
Qed.

Lemma authors_fallback_stripped (elems : list string) (authors : string) :
  strip authors = authors ->
  strip (authors_fallback elems authors) = authors_fallback elems authors.
Proof.
  intros Ha. induction elems as [|e rest IH]; [done|].
  cbn [authors_fallback]. destruct (_ && _); [apply strip_idem|exact IH].
Qed.

Lemma abstract_loop_stripped (soup : PageView) (selectors : list string)
      (abstract : string) :
  strip abstract = abstract ->
  strip (abstract_loop soup selectors abstract)
  = abstract_loop soup selectors abstract.
Proof.
  revert abstract.
  induction selectors as [|sel rest IH]; intros abstract Ha; [done|].
  cbn [abstract_loop]. destruct (select_one soup sel) as [text|]; [|by apply IH].
  destruct (_ <? _)%nat; [apply strip_idem|]. apply IH, strip_idem.
Qed.

Lemma abstract_fallback_stripped (ps : list string) (abstract : string) :
  strip abstract = abstract ->
  strip (abstract_fallback ps abstract) = abstract_fallback ps abstract.
Proof.
  intros Ha. induction ps as [|p rest IH]; [done|].
  cbn [abstract_fallback]. destruct (_ && _); [apply strip_idem|exact IH].
Qed.

(** X9. The text fields of a record carry no white space at either
    end: title, authors and abstract are each left unchanged by
    [strip]. *)
Theorem record_fields_are_stripped
        (content url : string) (year : Z) (p : Paper) :
  extract content url year = inr (Some p) ->
  strip (title p) = title p
  /\ strip (authors p) = authors p
  /\ strip (abstract p) = abstract p.
Proof.
  intros Hx. apply extract_Some in Hx as (pdf & supp & _ & _ & _ & ->).
  cbn [title authors abstract].
  split; [by apply title_loop_stripped|]. split.
  - unfold extract_authors. destruct (negb _).
    + apply authors_fallback_stripped. by apply authors_loop_stripped.
    + by apply authors_loop_stripped.
  - unfold extract_abstract. destruct (negb _).
    + apply abstract_fallback_stripped. by apply abstract_loop_stripped.
    + by apply abstract_loop_stripped.
Qed.

(** X10. A record names the page it was read from and the partition
    it was asked for, and its two optional URLs are either absent or
    a non-empty string, never the empty string. *)
Theorem record_names_its_source
        (content source : string) (partition : Z) (p : Paper) :
  extract content source partition = inr (Some p) ->
  url p = source
  /\ year p = partition
  /\ pdf_url p <> Some EmptyString
  /\ supplementary_url p <> Some EmptyString.
Proof.
  intros Hx. apply extract_Some in Hx as (pdf & supp & _ & _ & _ & ->).
  cbn [url year pdf_url supplementary_url].
  split; [done|]. split; [done|].
  split; [by destruct pdf|by destruct supp].
Qed.

(** *** The title *)

(** X11. The title is the cleaned text of the first selector, in the
    order title, h1, .paper-title, #papertitle, whose element exists
    and whose text is not empty once stripped and relieved of the
    venue note; it is empty when there is none. *)
Theorem title_is_first_nonempty_match (soup : PageView) :
  extract_title soup
  = default EmptyString
      (head (filter (fun t => truthy t = true)
                    (map cleaned_title
                         (omap (select_one soup) title_selectors)))).
Proof.
  unfold extract_title.
  induction title_selectors as [|sel rest IH]; [done|].
  cbn [title_loop omap list_omap].
  destruct (select_one soup sel) as [text|]; [|apply IH].
  cbn [map]. fold (cleaned_title text).
  destruct (truthy (cleaned_title text)) eqn:Ht.
  - by rewrite filter_cons_True by done.
  - rewrite filter_cons_False by congruence.
    destruct (cleaned_title text); [exact IH|done].
Qed.

(** *** The authors *)

Lemma split_not_nil (sep : ascii) (s : string) : split sep s <> [].
Proof.
  destruct s as [|c s]; [done|]. cbn [split].
  destruct (Ascii.eqb c sep); [done|]. by destruct (split sep s).
Qed.

Lemma comma_splits (s : string) :
  contains "," s = true -> (1 <? length (split "," s))%nat = true.
Proof.
  induction s as [|c s IH]; [done|].
  rewrite contains_unfold. cbn [startswith split].
  rewrite (Ascii.eqb_sym "," c).
  destruct (Ascii.eqb c ",") eqn:Hc.
  - intros _. pose proof (split_not_nil "," s).
    destruct (split "," s); done.
  - simpl. intros H%IH. destruct (split "," s) as [|a [|b l]]; done.
Qed.

(** X12. The authors are the stripped text of the first author
    selector whose element exists; when that is empty or no selector
    matches, they are the first emphasised text, stripped, that holds a
    comma (the count of the comma-separated tokens never rejects such a
    text); otherwise they are empty. *)
Theorem authors_are_first_match_or_first_comma_text (soup : PageView) :
  extract_authors soup
  = let a := default EmptyString
               (strip <$> head (omap (select_one soup) author_selectors)) in
    if truthy a then a
    else default a
           (head (filter (fun t => contains "," t = true)
                         (map strip (find_all_emph soup)))).
Proof.
  unfold extract_authors.
  assert (forall sels a0,
             authors_loop soup sels a0
             = default a0 (strip <$> head (omap (select_one soup) sels)))
    as Hloop.
  { induction sels as [|sel rest IH]; intros a0; [done|].
    cbn [authors_loop omap list_omap].
    destruct (select_one soup sel) as [text|]; [done|apply IH]. }
  assert (forall elems a0,
             authors_fallback elems a0
             = default a0
                 (head (filter (fun t => contains "," t = true)
                               (map strip elems))))
    as Hfall.
  { induction elems as [|e rest IH]; intros a0; [done|].
    cbn [authors_fallback map].
    destruct (contains "," (strip e)) eqn:Hc.
    - rewrite (comma_splits _ Hc). by rewrite filter_cons_True by done.
    - rewrite filter_cons_False by congruence. apply IH. }
  rewrite Hloop, Hfall. cbn zeta.
  by destruct (truthy _).
Qed.

(** *** The abstract *)

Lemma abstract_loop_origin (soup : PageView) (selectors : list string)
      (abstract0 : string) :
  abstract_loop soup selectors abstract0 = abstract0
  \/ abstract_loop soup selectors abstract0 ∈ cleaned_matches soup selectors.
Proof.
  revert abstract0.
  induction selectors as [|sel rest IH]; intros abstract0; [by left|].
  cbn [abstract_loop cleaned_matches omap list_omap].
  destruct (select_one soup sel) as [text|]; cbn [fmap option_fmap option_map].
  - fold (cleaned text). fold (cleaned_matches soup rest). right.
    destruct (_ <? _)%nat; [by left|].
    destruct (IH (cleaned text)) as [->|Hin]; [by left|by right].
  - apply IH.
Qed.

Lemma abstract_fallback_first (ps : list string) (abstract0 : string) :
  abstract_fallback ps abstract0
  = default abstract0
      (strip <$> head (filter (fun p => long_paragraph p = true) ps)).
Proof.
  induction ps as [|p rest IH]; [done|].
  cbn [abstract_fallback]. fold (long_paragraph p).
  destruct (long_paragraph p) eqn:Hp.
  - by rewrite filter_cons_True by done.
  - by rewrite filter_cons_False by congruence.
Qed.

(** X13. Where the abstract comes from: it is empty, or it is the
    cleaned text of an element one of the abstract selectors matched,
    or, when the selector chain left nothing, it is the first paragraph
    whose stripped text is longer than 200 characters and does not hold
    the word abstract within its first 50 characters, lower-cased; in
    that case it is longer than 200 characters. *)
Theorem abstract_is_selector_match_or_long_paragraph (soup : PageView) :
  extract_abstract soup = EmptyString
  \/ extract_abstract soup ∈ cleaned_matches soup abstract_selectors
  \/ exists p,
       abstract_loop soup abstract_selectors EmptyString = EmptyString
       /\ head (filter (fun p => long_paragraph p = true) (find_all_p soup))
          = Some p
       /\ extract_abstract soup = strip p
       /\ (200 < String.length (extract_abstract soup))%nat.
Proof.
  unfold extract_abstract.
  destruct (abstract_loop_origin soup abstract_selectors EmptyString)
    as [Hempty|Hin].
  - rewrite Hempty. cbn [truthy negb]. rewrite abstract_fallback_first.
    destruct (head _) as [p|] eqn:Hp; [|by left].
    right; right. exists p. cbn. split; [done|]. split; [done|]. split; [done|].
    apply head_Some_elem_of, list_elem_of_filter in Hp as [Hlong _].
    unfold long_paragraph in Hlong.
    apply andb_true_iff in Hlong as [Hlen _]. by apply Nat.ltb_lt.
  - destruct (truthy _) eqn:Ht; cbn [negb].
    + right; by left.
    + destruct (abstract_loop _ _ _); [|done]. 
      rewrite abstract_fallback_first.
      destruct (head _) as [p|] eqn:Hp; [|by left].
      right; right. exists p. cbn. split; [done|]. split; [done|].
      split; [done|].
      apply head_Some_elem_of, list_elem_of_filter in Hp as [Hlong _].
      unfold long_paragraph in Hlong.
      apply andb_true_iff in Hlong as [Hlen _]. by apply Nat.ltb_lt.
Qed.

End FieldExtractorExtras.

Section FieldExtractorExtrasExamples.
Import Fixture PyStr.

(** On the site: the record of [doc_a], whose author block carries
    blanks at both ends. *)
Lemma record_fields_are_stripped_witness :
  strip (title paper_a) = title paper_a
  /\ strip (authors paper_a) = authors paper_a
  /\ strip (abstract paper_a) = abstract paper_a.
Proof.
  apply (record_fields_are_stripped (E:=env1) "<doc a>" doc_a 2015 paper_a).
  vm_compute. reflexivity.
Defined.

(** On the site: the record of [doc_e], which has no link at all. *)
Lemma record_names_its_source_witness :
  url paper_e = doc_e
  /\ year paper_e = 2017%Z
  /\ pdf_url paper_e <> Some EmptyString
  /\ supplementary_url paper_e <> Some EmptyString.
Proof.
  apply (record_names_its_source (E:=env1) "<doc e>" doc_e 2017 paper_e).
  vm_compute. reflexivity.
Defined.

End FieldExtractorExtrasExamples.

(** ** One partition *)

Section PartitionExtras.
Context {E : Env}.
Variable self : CVPRScraperAsync.

Import PyStr PipelineSpec.

Lemma mapM_results {A B} (f : A -> M B) (l : list A) (w w' : World)
      (rs : list B) :
  mapM f l w = (Ok rs, w') ->
  Forall2 (fun a r => exists wa wb, f a wa = (Ok r, wb)) l rs.
Proof.
  revert w w' rs. induction l as [|a l IH]; intros w w' rs; simpl.
  { intros [= <- _]. constructor. }
  unfold mbind, M_bind.
  destruct (f a w) as [[r|e|] w1] eqn:Hf; try done.
  destruct (mapM f l w1) as [[rs'|e|] w2] eqn:Hm; try done.
  intros [= <- _]. constructor; [by exists w, w1|]. by eapply IH.
Qed.

Lemma scrape_paper_Some (u : string) (y : Z) (w w' : World) (p : Paper) :
  scrape_paper self u y w = (Ok (Some p), w') ->
  exists content, extract content u y = inr (Some p).
Proof.
  unfold scrape_paper, mbind, M_bind, mret, M_ret.
  destruct (get_cached_or_fetch self u _ w) as [[content|e|] w1]; try done.
  destruct (negb (truthy_opt content)); [done|].
  destruct (extract _ u y) as [e|r] eqn:Hx; [done|].
  intros [= -> _]. by eexists.
Qed.

Lemma results_count (rs : list (option Paper)) :
  (length (omap id rs) + length (filter (fun r => r = None) rs))%nat
  = length rs.
Proof.
  induction rs as [|[p|] rs IH]; [done|..].
  - rewrite filter_cons_False by done. cbn. lia.
  - rewrite filter_cons_True by done. cbn. lia.
Qed.

Lemma scrape_year_unfold (year : Z) (w w1 : World) (urls : list string) :
  get_paper_urls_for_year self year w = (Ok urls, w1) ->
  urls <> [] ->
  scrape_year self year w
  = (if (max_concurrent self <? 0)%Z
     then (Raise (ValueError "Semaphore initial value must be >= 0"), w1)
     else if (max_concurrent self =? 0)%Z then (Hang, w1)
     else match mapM (fun url => scrape_paper self url year) urls w1 with
          | (Ok results, w2) =>
              (Ok (omap id results),
               RunSpec.add_log w2
                 [Scraped year (length (omap id results))
                          (length (filter (fun r => r = None) results))])
          | (Raise e, w2) => (Raise e, w2)
          | (Hang, w2) => (Hang, w2)
          end).
Proof.
  intros Hd Hne. unfold scrape_year, mbind, M_bind. rewrite Hd.
  destruct urls as [|u urls]; [done|].
  unfold Semaphore.
  destruct (max_concurrent self <? 0)%Z; [done|]. cbn -[mapM].
  destruct (max_concurrent self =? 0)%Z; [done|].
  by destruct (mapM _ _ w1) as [[rs|e|] w2].
Qed.

(** X14. A partition accounts for every URL it discovered: the
    records it returns and the units it counts as failed add up to the
    number of discovered URLs, which is what its closing log line
    reports; and every record it returns carries the partition's year,
    the URL of one of the discovered pages, and a non-empty title and
    abstract. *)
Theorem partition_accounts_for_every_url
        (y : Z) (w w1 w' : World) (urls : list string)
        (papers : list Paper) :
  get_paper_urls_for_year self y w = (Ok urls, w1) ->
  urls <> [] ->
  scrape_year self y w = (Ok papers, w') ->
  exists failed,
    log w' = log w ++ [Scraped y (length papers) failed]
    /\ (length papers + failed)%nat = length urls
    /\ Forall (fun p => year p = y
                        /\ url p ∈ urls
                        /\ title p <> EmptyString
                        /\ abstract p <> EmptyString) papers.
Proof.
  intros Hd Hne Hrun.
  rewrite (scrape_year_unfold y w w1 urls) in Hrun by done.
  destruct (max_concurrent self <? 0)%Z; [done|].
  destruct (max_concurrent self =? 0)%Z; [done|].
  pose proof (keeps_log_mapM (fun url => scrape_paper self url y) urls
                (fun a => keeps_log_scrape_paper self a y) w1) as Hlog.
  pose proof (keeps_log_discovery self y w) as Hlog0.
  rewrite Hd in Hlog0. simpl in Hlog0.
  destruct (mapM _ urls w1) as [[rs|e|] w2] eqn:Hm; try done.
  injection Hrun as <- <-. simpl in Hlog.
  exists (length (filter (fun r => r = None) rs)).
  split; [simpl; congruence|].
  apply mapM_results in Hm.
  split.
  - rewrite results_count. symmetry. by eapply Forall2_length.
  - clear -Hm. induction Hm as [|u r us rs (wa & wb & Hr) _ IH]; [constructor|].
    destruct r as [p|]; cbn.
    + constructor.
      * apply scrape_paper_Some in Hr as [content Hx].
        pose proof Hx as Hx'.
        apply extract_Some in Hx as (pdf & supp & _ & Ht & Ha & ->).
        cbn. rewrite <- !truthy_true.
        repeat split; try done. by left.
      * eapply Forall_impl; [exact IH|].
        intros q (? & ? & ? & ?). repeat split; try done. by right.
    + eapply Forall_impl; [exact IH|].
      intros q (? & ? & ? & ?). repeat split; try done. by right.
Qed.

(** X15. A partition whose index page cannot be had (it is not in the
    cache and the server does not answer with status 200) is not an
    error: [scrape_year] returns no record, writes the warning that no
    URL was found, has made that one request, and leaves the cache as
    it was, whatever the concurrency limit. *)
Theorem unreachable_index_gives_empty_partition (year : Z) (w : World) :
  (use_cache self = true -> cache w !! cache_file (main_key year) = None) ->
  (forall content, http_get (index_url year) <> Response 200 content) ->
  scrape_year self year w
  = (Ok [], mkWorld (cache w) (requests w ++ [index_url year])
                    (log w ++ [NoUrls year])).
Proof.
  intros Hmiss Hbad.
  pose proof (get_cached_or_fetch_failure self (index_url year) (main_key year)
                w Hmiss Hbad) as Hf.
  assert (get_paper_urls_for_year self year w
          = (Ok [], mkWorld (cache w) (requests w ++ [index_url year]) (log w)))
    as Hd.
  { unfold get_paper_urls_for_year, mbind, M_bind.
    unfold index_url, main_key in Hf. by rewrite Hf. }
  unfold scrape_year, mbind, M_bind. by rewrite Hd.
Qed.

(** X16. The concurrency limit at its edges. With at least one URL
    discovered, a negative limit makes [scrape_year] raise [ValueError]
    and a limit of zero makes it wait for ever, in both cases before
    any document is requested; with no URL discovered the limit is not
    looked at and the partition returns no record. *)
Theorem limit_edge_cases
        (year : Z) (w w1 : World) (urls : list string) :
  get_paper_urls_for_year self year w = (Ok urls, w1) ->
  (urls = [] ->
   scrape_year self year w = (Ok [], RunSpec.add_log w1 [NoUrls year]))
  /\ (urls <> [] -> (max_concurrent self < 0)%Z ->
      scrape_year self year w
      = (Raise (ValueError "Semaphore initial value must be >= 0"), w1))
  /\ (urls <> [] -> max_concurrent self = 0%Z ->
      scrape_year self year w = (Hang, w1)).
Proof.
  intros Hd. split; [|split].
  - intros ->. unfold scrape_year, mbind, M_bind. by rewrite Hd.
  - intros Hne Hneg. rewrite (scrape_year_unfold year w w1 urls) by done.
    apply Z.ltb_lt in Hneg. by rewrite Hneg.
  - intros Hne Hz. rewrite (scrape_year_unfold year w w1 urls) by done.
    by rewrite Hz.
Qed.

End PartitionExtras.

Section PartitionExtrasExamples.
Import Fixture Site PipelineSpec.

(** On the site: partition 2015 discovers three pages, returns two
    records and counts one failure. *)
Lemma partition_accounts_for_every_url_witness :
  exists failed,
    log scraped_2015 = log empty_world ++ [Scraped 2015 (length [paper_a; paper_c]) failed]
    /\ (length [paper_a; paper_c] + failed)%nat = length [doc_a; doc_c; doc_n]
    /\ Forall (fun p => year p = 2015%Z
                        /\ url p ∈ [doc_a; doc_c; doc_n]
                        /\ title p <> EmptyString
                        /\ abstract p <> EmptyString) [paper_a; paper_c].
Proof.
  apply (partition_accounts_for_every_url (E:=env1) only_2015 2015 empty_world
           discovered_2015 scraped_2015).
  - vm_compute. reflexivity.
  - discriminate.
  - vm_compute. reflexivity.
Defined.

(** On the site: there is no index page for 2014. *)
Lemma unreachable_index_gives_empty_partition_witness :
  scrape_year (E:=env1) only_2015 2014 empty_world
  = (Ok [], mkWorld ∅ [index_url 2014] [NoUrls 2014]).
Proof.
  apply (unreachable_index_gives_empty_partition (E:=env1) only_2015 2014
           empty_world).
  - intros _. reflexivity.
  - intros content H. vm_compute in H. discriminate H.
Defined.

(** On the site: partition 2017 discovers one page; under a limit of
    -1 it raises, under a limit of 0 it waits for ever. *)
Lemma limit_edge_cases_witness :
  scrape_year (E:=env1) negative_limit 2017 empty_world
  = (Raise (ValueError "Semaphore initial value must be >= 0"), discovered_2017)
  /\ scrape_year (E:=env1) zero_limit 2017 empty_world
     = (Hang, discovered_2017).
Proof.
  split.
  - destruct (limit_edge_cases (E:=env1) negative_limit 2017 empty_world
                discovered_2017 [doc_e]) as (_ & H & _).
    + vm_compute. reflexivity.
    + apply H; [discriminate|reflexivity].
  - destruct (limit_edge_cases (E:=env1) zero_limit 2017 empty_world
                discovered_2017 [doc_e]) as (_ & _ & H).
    + vm_compute. reflexivity.
    + apply H; [discriminate|reflexivity].
Defined.

End PartitionExtrasExamples.

(** ** The whole run *)

Section RunExtras.
Context {E : Env}.
Variable self : CVPRScraperAsync.

Import PyStr PipelineSpec RunSpec.

(** X17. An empty range of partitions (the end year before the start
    year) is a run that does nothing: no request, no log line, no
    checkpoint, and an empty result, in either mode. *)
Theorem empty_range_does_nothing (w : World) :
  (end_year self < start_year self)%Z ->
  scrape_all_years self w = (Ok [], w).
Proof.
  intros Hlt. unfold scrape_all_years, years.
  rewrite seqZ_nil by lia. simpl. by rewrite andb_false_r.
Qed.

(** X18. A single partition is never isolated. When the range holds
    one year, [scrape_all_years] takes the sequential branch even with
    parallel mode on, so an exception raised by that partition ends the
    run instead of being logged and skipped. *)
Theorem single_partition_is_not_isolated (e : exn) (w w' : World) :
  end_year self = start_year self ->
  scrape_year self (start_year self) w = (Raise e, w') ->
  scrape_all_years self w = (Raise e, w').
Proof.
  intros Heq Hy. unfold scrape_all_years, years. rewrite Heq.
  replace (start_year self + 1 - start_year self)%Z with 1%Z by lia.
  rewrite seqZ_cons by lia. rewrite seqZ_nil by lia.
  cbn [length Nat.ltb Nat.leb]. rewrite andb_false_r.
  cbn [sequential_loop]. unfold mbind, M_bind. by rewrite Hy.
Qed.

(** *** The trail of checkpoints *)

Lemma saved_lists_app (a b : list event) :
  saved_lists (a ++ b) = saved_lists a ++ saved_lists b.
Proof. induction a as [|[] a IH]; simpl; by rewrite ?IH. Qed.

Lemma saved_lists_completions (l : list event) :
  Forall (fun m => exists y, m = Completed y) (marks l) ->
  saved_lists l = [].
Proof.
  induction l as [|[] l IH]; simpl; [done|..].
  - intros [_ H]%Forall_cons. by apply IH.
  - intros [_ H]%Forall_cons. by apply IH.
  - apply IH.
  - intros [[y Hy] _]%Forall_cons. discriminate Hy.
Qed.

Lemma scrape_year_saves_nothing (y : Z) (w : World) :
  exists l, log (scrape_year self y w).2 = log w ++ l /\ saved_lists l = [].
Proof.
  destruct (scrape_year_log self y w) as (l & Hl & Hm & _).
  exists l. split; [done|]. apply saved_lists_completions. rewrite Hm.
  destruct (is_ok _); repeat constructor. by eexists.
Qed.

Lemma trail_step (acc ps final : list Paper) (rest : list (list Paper)) :
  StronglySorted prefix ((acc ++ ps) :: rest ++ [final]) ->
  StronglySorted prefix (acc :: (acc ++ ps) :: rest ++ [final]).
Proof.
  intros Hs. constructor; [done|].
  apply StronglySorted_inv in Hs as [_ Hall].
  constructor; [by apply prefix_app_r|].
  eapply Forall_impl; [exact Hall|]. intros x Hx.
  etrans; [|exact Hx]. by apply prefix_app_r.
Qed.

Lemma sequential_loop_trail (ys : list Z) (acc final : list Paper)
      (w w' : World) :
  sequential_loop self ys acc w = (Ok final, w') ->
  exists l,
    log w' = log w ++ l
    /\ StronglySorted prefix (acc :: saved_lists l ++ [final])
    /\ last (acc :: saved_lists l) = Some final.
Proof.
  revert acc w. induction ys as [|y ys IH]; intros acc w; simpl.
  { intros [= <- <-]. exists []. rewrite app_nil_r. split; [done|].
    split; [|done]. repeat (constructor; try done). }
  unfold mbind, M_bind.
  destruct (scrape_year_saves_nothing y w) as (l1 & Hl1 & Hs1).
  destruct (scrape_year self y w) as [[ps|e|] w1]; [|done|done].
  unfold save_papers_json_async, emit. intros Hrest.
  apply IH in Hrest as (l2 & Hl2 & Hsorted & Hlast). simpl in *.
  exists (l1 ++ Saved (partial_file y) (acc ++ ps) :: l2).
  split; [rewrite Hl2, Hl1; by rewrite <- !app_assoc|].
  rewrite saved_lists_app, Hs1. cbn [app saved_lists].
  split; [by apply trail_step|].
  by rewrite last_cons_cons.
Qed.

Lemma merge_events_trail (zipped : list (Z * (exn + list Paper)))
      (acc : list Paper) :
  StronglySorted prefix
    (acc :: saved_lists (merge_events zipped acc)
         ++ [acc ++ concat (map (fun z => contribution z.2) zipped)])
  /\ last (acc :: saved_lists (merge_events zipped acc))
     = Some (acc ++ concat (map (fun z => contribution z.2) zipped)).
Proof.
  revert acc. induction zipped as [|[y [e|ps]] rest IH]; intros acc.
  - cbn. rewrite app_nil_r. split; [|done]. repeat (constructor; try done).
  - cbn [merge_events saved_lists map concat contribution snd app].
    apply IH.
  - cbn [merge_events saved_lists map concat contribution snd].
    destruct (IH (acc ++ ps)) as [Hsorted Hlast].
    rewrite <- app_assoc in Hsorted, Hlast.
    split; [by apply trail_step|]. by rewrite last_cons_cons.
Qed.

Lemma run_tasks_saves_nothing (order : list Z) (w : World) done (w1 : World) :
  run_tasks self order w = (done, w1) ->
  exists l, log w1 = log w ++ l /\ saved_lists l = [].
Proof.
  intros (_ & l & Hl & Hm)%run_tasks_spec. exists l. split; [done|].
  apply saved_lists_completions. rewrite Hm.
  apply Forall_fmap, Forall_true. intros d. by eexists.
Qed.

(** X19. The checkpoints of a run are a strictly additive trail: each
    checkpoint holds the records of the one before it followed by more
    records, every checkpoint is an initial part of the list the run
    returns, and when the run returns at least one record the last
    checkpoint written holds exactly the returned list. This holds in
    both modes. *)
Theorem checkpoints_are_cumulative (w w' : World) (final : list Paper) :
  scrape_all_years self w = (Ok final, w') ->
  exists l,
    log w' = log w ++ l
    /\ StronglySorted prefix (saved_lists l ++ [final])
    /\ (final <> [] -> last (saved_lists l) = Some final).
Proof.
  intros Hrun.
  assert (exists l,
             log w' = log w ++ l
             /\ StronglySorted prefix ([] :: saved_lists l ++ [final])
             /\ last ([] :: saved_lists l) = Some final)
    as (l & Hl & Hsorted & Hlast).
  { unfold scrape_all_years in Hrun.
    destruct (parallel_years self && (1 <? length (years self))%nat).
    - unfold mbind, M_bind, gather in Hrun.
      destruct (run_tasks self _ w) as [done w1] eqn:Htasks.
      destruct (collect_results _ done) as [results|]; [|done].
      rewrite merge_loop_spec in Hrun. injection Hrun as <- <-.
      apply run_tasks_saves_nothing in Htasks as (l1 & Hl1 & Hs1).
      exists (l1 ++ merge_events (zip (years self) results) []).
      split; [simpl; by rewrite Hl1, app_assoc|].
      rewrite saved_lists_app, Hs1. cbn [app].
      apply merge_events_trail.
    - by apply sequential_loop_trail in Hrun. }
  exists l. split; [done|]. split.
  - by apply StronglySorted_inv in Hsorted as [? _].
  - intros Hne. destruct (saved_lists l) as [|a rest]; [|by rewrite last_cons_cons in Hlast].
    cbn in Hlast. congruence.
Qed.

End RunExtras.

Section RunExtrasExamples.
Import Fixture Site PipelineSpec.

(** On the site: the range 2016 down to 2015. *)
Lemma empty_range_does_nothing_witness :
  scrape_all_years (E:=env1) empty_range empty_world = (Ok [], empty_world).
Proof.
  apply (empty_range_does_nothing (E:=env1) empty_range empty_world).
  vm_compute. reflexivity.
Defined.

(** On the site: partition 2016 alone, parallel mode on; its discovery
    raises and so does the run. *)
Lemma single_partition_is_not_isolated_witness :
  scrape_all_years (E:=env1) single_parallel empty_world
  = (Raise (ValueError "Invalid IPv6 URL"),
     (scrape_year (E:=env1) single_parallel 2016 empty_world).2).
Proof.
  apply (single_partition_is_not_isolated (E:=env1) single_parallel).
  - reflexivity.
  - vm_compute. reflexivity.
Defined.

(** On the site: partitions 2017 and 2018 side by side. *)
Lemma checkpoints_are_cumulative_witness :
  exists l,
    log finished_rev = log empty_world ++ l
    /\ StronglySorted prefix (saved_lists l ++ [[paper_e; paper_g]])
    /\ ([paper_e; paper_g] <> [] -> last (saved_lists l) = Some [paper_e; paper_g]).
Proof.
  apply (checkpoints_are_cumulative (E:=env_rev) two_parallel empty_world
           finished_rev [paper_e; paper_g]).
  vm_compute. reflexivity.
Defined.

End RunExtrasExamples.

(** ** What a run does to the world *)

Section Preservation.
Context {E : Env}.
Variable self : CVPRScraperAsync.

(** A relation between the world before and the world after that is
    reflexive and transitive, and that the fetcher and the log writer
    respect, is respected by every stage of the pipeline. *)
Variable R : World -> World -> Prop.
Hypothesis R_refl : forall w, R w w.
Hypothesis R_trans : forall w1 w2 w3, R w1 w2 -> R w2 w3 -> R w1 w3.
Hypothesis R_fetch :
  forall url k w, R w (get_cached_or_fetch self url k w).2.
Hypothesis R_emit : forall e w, R w (emit e w).2.

Lemma respects_bind {A B} (m : M A) (f : A -> M B) :
  (forall w, R w (m w).2) -> (forall a w, R w (f a w).2) ->
  forall w, R w ((m ≫= f) w).2.
Proof using R_trans.
  intros Hm Hf w. unfold mbind, M_bind. specialize (Hm w).
  destruct (m w) as [[a|e|] w1]; simpl in *; [|done|done].
  eapply R_trans; [exact Hm|apply Hf].
Qed.

Lemma respects_lift {A} (r : exn + A) : forall w, R w (lift r w).2.
Proof using R_refl. destruct r; intros w; apply R_refl. Qed.

Lemma respects_mapM {A B} (f : A -> M B) (l : list A) :
  (forall a w, R w (f a w).2) -> forall w, R w (mapM f l w).2.
Proof using R_refl R_trans.
  intros Hf. induction l as [|x l IH]; simpl; [intros w; apply R_refl|].
  apply respects_bind; [apply Hf|]. intros y.
  apply respects_bind; [apply IH|]. intros ys w. apply R_refl.
Qed.

Lemma respects_discovery (year : Z) :
  forall w, R w (get_paper_urls_for_year self year w).2.
Proof using R_refl R_trans R_fetch.
  unfold get_paper_urls_for_year.
  apply respects_bind; [apply R_fetch|].
  intros [content|]; [|intros w; apply R_refl].
  destruct (negb (PyStr.truthy content)); [intros w; apply R_refl|].
  apply respects_bind; [|intros ? w; apply R_refl].
  destruct (year <=? 2015)%Z; [apply respects_lift|].
  apply respects_bind; [apply respects_lift|]. intros found.
  apply respects_bind; [apply R_fetch|]. intros listing.
  destruct (PyStr.truthy_opt listing);
    [apply respects_lift | intros w; apply R_refl].
Qed.

Lemma respects_scrape_paper (url : string) (year : Z) :
  forall w, R w (scrape_paper self url year w).2.
Proof using R_refl R_trans R_fetch.
  unfold scrape_paper.
  apply respects_bind; [apply R_fetch|]. intros content.
  destruct (negb (PyStr.truthy_opt content)); [intros w; apply R_refl|].
  destruct (extract _ _ _); intros w; apply R_refl.
Qed.

Lemma respects_scrape_year (year : Z) :
  forall w, R w (scrape_year self year w).2.
Proof using R_refl R_trans R_fetch R_emit.
  unfold scrape_year.
  apply respects_bind; [apply respects_discovery|].
  intros [|u urls].
  { apply respects_bind; [apply R_emit|]. intros ? w. apply R_refl. }
  apply respects_bind.
  { unfold Semaphore. destruct (_ <? _)%Z; intros w; apply R_refl. }
  intros sem. destruct (sem =? 0)%Z; [intros w; apply R_refl|].
  apply respects_bind.
  { apply respects_mapM. intros a. apply respects_scrape_paper. }
  intros rs. apply respects_bind; [apply R_emit|]. intros ? w. apply R_refl.
Qed.

Lemma respects_sequential_loop (ys : list Z) (acc : list Paper) :
  forall w, R w (sequential_loop self ys acc w).2.
Proof using R_refl R_trans R_fetch R_emit.
  revert acc. induction ys as [|y ys IH]; intros acc; simpl.
  { intros w. apply R_refl. }
  apply respects_bind; [apply respects_scrape_year|]. intros ps.
  apply respects_bind; [apply R_emit|]. intros _. apply IH.
Qed.

Lemma respects_run_tasks (order : list Z) :
  forall w, R w (run_tasks self order w).2.
Proof using R_refl R_trans R_fetch R_emit.
  induction order as [|y rest IH]; intros w; simpl; [apply R_refl|].
  pose proof (respects_scrape_year y w) as Hy.
  destruct (scrape_year self y w) as [r w1].
  specialize (IH w1). destruct (run_tasks self rest w1) as [rs w2].
  simpl in *. by eapply R_trans.
Qed.

Lemma respects_merge_loop (zipped : list (Z * (exn + list Paper)))
      (acc : list Paper) :
  forall w, R w (merge_loop zipped acc w).2.
Proof using R_refl R_trans R_emit.
  revert acc. induction zipped as [|[y [e|ps]] rest IH]; intros acc; simpl.
  - intros w. apply R_refl.
  - apply respects_bind; [apply R_emit|]. intros _. apply IH.
  - apply respects_bind; [apply R_emit|]. intros _. apply IH.
Qed.

Lemma respects_scrape_all_years :
  forall w, R w (scrape_all_years self w).2.
Proof using R_refl R_trans R_fetch R_emit.
  unfold scrape_all_years.
  destruct (parallel_years self && _).
  - apply respects_bind; [|intros results; apply respects_merge_loop].
    intros w. unfold gather.
    pose proof (respects_run_tasks (completion_order (years self)) w) as Hr.
    destruct (run_tasks self _ w) as [done w1].
    by destruct (collect_results _ done).
  - apply respects_sequential_loop.
Qed.

End Preservation.

Section WorldExtras.
Context {E : Env}.
Variable self : CVPRScraperAsync.

Import PipelineSpec.






Lemma uncached_fetch_keeps_cache (url : string) (k : option string) (w : World) :
  use_cache self = false ->
  cache (get_cached_or_fetch self url k w).2 = cache w.
Proof.
  intros Hc.
  unfold get_cached_or_fetch, mbind, M_bind, mret, M_ret, session_get.
  rewrite Hc. simpl.
  destruct (http_get url) as [st c|e]; [|done]. by destruct (st =? 200)%Z.
Qed.

(** X21. With the cache switched off, a whole run leaves the cache
    directory exactly as it found it. *)
Theorem uncached_run_keeps_cache (w : World) :
  use_cache self = false ->
  cache (scrape_all_years self w).2 = cache w.
Proof.
  intros Hc.
  apply (respects_scrape_all_years self (fun w w' => cache w' = cache w)).
  - done.
  - intros w1 w2 w3 H12 H23. congruence.
  - intros url k w0. by apply uncached_fetch_keeps_cache.
  - done.
Qed.

End WorldExtras.

Section WorldExtrasExamples.
Import Fixture Site.

(** On the site: partition 2015 without cache, started on the cache
    a first run left. *)
Lemma uncached_run_keeps_cache_witness :
  cache (scrape_all_years (E:=env1) uncached_2015 first_run).2 = cache first_run.
Proof.
  apply (uncached_run_keeps_cache (E:=env1) uncached_2015 first_run).
  reflexivity.
Defined.

End WorldExtrasExamples.

(** ** The names of the cache files *)

Section CacheKeyExtras.
Context {E : Env}.

Import PyStr PipelineSpec.

Lemma append_cons (c : ascii) (s t : string) :
  String c s +:+ t = String c (s +:+ t).
Proof. reflexivity. Qed.

Lemma append_length (s t : string) :
  String.length (s +:+ t) = (String.length s + String.length t)%nat.
Proof.
  induction s as [|c s IH]; [done|].
  rewrite append_cons. cbn [String.length]. by rewrite IH.
Qed.

Lemma append_inj_r (s1 s2 t : string) : s1 +:+ t = s2 +:+ t -> s1 = s2.
Proof.
  revert s2. induction s1 as [|a s1 IH]; intros [|b s2] H.
  - done.
  - apply (f_equal String.length) in H.
    rewrite append_cons in H. cbn [String.length] in H.
    rewrite !append_length in H. cbn in H. lia.
  - apply (f_equal String.length) in H.
    rewrite append_cons in H. cbn [String.length] in H.
    rewrite !append_length in H. cbn in H. lia.
  - rewrite !append_cons in H. injection H as -> H. f_equal. by apply IH.
Qed.

Lemma main_suffix_is_not_listing (s1 s2 : string) :
  s1 +:+ "_main" <> s2 +:+ "_listing".
Proof.
  revert s2. induction s1 as [|a s1 IH]; intros s2 H.
  - apply (f_equal String.length) in H. rewrite !append_length in H.
    cbn in H. lia.
  - destruct s2 as [|b s2].
    + pose proof (f_equal String.length H) as Hlen.
      rewrite append_cons in Hlen. cbn [String.length] in Hlen.
      rewrite !append_length in Hlen. cbn in Hlen.
      destruct s1 as [|x [|y [|z s1]]]; cbn in Hlen; try lia.
      discriminate H.
    + rewrite !append_cons in H. injection H as _ H. by apply IH in H.
Qed.

(** X22. The cache files of a run keep apart. The index pages of two
    different years are stored under different keys, and so are their
    listing pages; no index page shares its key with any listing page;
    and a document page, stored under a key that starts with paper,
    never shares its key with an index or listing page. *)
Theorem cache_keys_keep_apart (y y' : Z) (u : string) :
  (main_key y = main_key y' <-> y = y')
  /\ (listing_key y = listing_key y' <-> y = y')
  /\ main_key y <> listing_key y'
  /\ paper_cache_key u <> main_key y
  /\ paper_cache_key u <> listing_key y.
Proof.
  unfold main_key, listing_key, paper_cache_key, of_int.
  split; [|split; [|split; [|split]]].
  - split; [|by intros ->].
    intros H. apply (inj (String.app "cvpr_")) in H.
    apply append_inj_r in H. by apply (inj pretty) in H.
  - split; [|by intros ->].
    intros H. apply (inj (String.app "cvpr_")) in H.
    apply append_inj_r in H. by apply (inj pretty) in H.
  - intros H. apply (inj (String.app "cvpr_")) in H.
    by apply main_suffix_is_not_listing in H.
  - intros H. rewrite !append_cons in H. discriminate H.
  - intros H. rewrite !append_cons in H. discriminate H.
Qed.

End CacheKeyExtras.

(** ** Reporting and the command line *)

Section ReportingExtras.
Context {E : Env}.

Import Reporting PipelineSpec.

Lemma indicator_sum (x : Z) (ks : list Z) :
  NoDup ks ->
  sum_list (map (fun k => if decide (x = k) then 1 else 0)%nat ks)
  = (if decide (x ∈ ks) then 1 else 0)%nat.
Proof.
  induction 1 as [|k ks Hk Hnd IH]; [done|].
  cbn [map sum_list]. rewrite IH.
  destruct (decide (x = k)) as [->|Hne].
  - rewrite decide_False by done. rewrite decide_True by left. done.
  - destruct (decide (x ∈ ks)) as [Hin|Hnin].
    + rewrite decide_True by (by right). done.
    + rewrite decide_False; [done|].
      intros [?|?]%elem_of_cons; done.
Qed.

Lemma per_year_counts_sum (papers : list Paper) (ks : list Z) :
  NoDup ks ->
  sum_list (map (fun k => length (filter (fun p => year p = k) papers)) ks)
  = length (filter (fun p => year p ∈ ks) papers).
Proof.
  intros Hnd. induction papers as [|p ps IH].
  - induction ks as [|k ks IHk]; [done|].
    apply NoDup_cons in Hnd as [_ Hnd]. cbn. by apply IHk.
  - rewrite filter_cons.
    assert (sum_list (map (fun k => length (filter (fun q => year q = k)
                                                  (p :: ps))) ks)
            = (sum_list (map (fun k => if decide (year p = k) then 1 else 0) ks)
               + sum_list (map (fun k => length (filter (fun q => year q = k) ps))
                               ks))%nat) as ->.
    { clear. induction ks as [|k ks IHk]; [done|].
      cbn [map sum_list]. rewrite IHk, filter_cons.
      destruct (decide (year p = k)); cbn; lia. }
    rewrite IH, indicator_sum by done.
    destruct (decide (year p ∈ ks)); cbn; lia.
Qed.

(** X23. The statistics add up. For a non-empty list of records,
    [get_statistics] reports the number of records as the total; the
    years it lists are in ascending order without repetition and are
    exactly the years that occur in the records; [papers_per_year] has
    one entry for each listed year, in that order, each at least 1; and
    the entries sum to the total. *)
Theorem statistics_add_up (papers : list Paper) (stats : Statistics) :
  get_statistics papers = Some stats ->
  papers <> []
  /\ total_papers stats = length papers
  /\ Sorted Z.le (stat_years stats)
  /\ NoDup (stat_years stats)
  /\ (forall y, y ∈ stat_years stats <-> exists p, p ∈ papers /\ year p = y)
  /\ map fst (papers_per_year stats) = stat_years stats
  /\ Forall (fun entry => (0 < entry.2)%nat) (papers_per_year stats)
  /\ sum_list (map snd (papers_per_year stats)) = total_papers stats.
Proof.
  intros Hs.
  assert (papers <> []) as Hne by (by destruct papers).
  assert (stats = mkStatistics
                    (length papers) (sorted_set (map year papers))
                    (map (fun y => (y, length (filter (fun p => year p = y)
                                                      papers)))
                         (sorted_set (map year papers)))) as ->.
  { destruct papers; [done|]. by injection Hs as <-. }
  clear Hs. cbn [total_papers stat_years papers_per_year].
  set (ys := sorted_set (map year papers)).
  assert (forall y, y ∈ ys <-> exists p, p ∈ papers /\ year p = y) as Hmem.
  { intros y. unfold ys, sorted_set.
    rewrite merge_sort_Permutation, elem_of_remove_dups, list_elem_of_fmap.
    split; intros (p & H1 & H2); exists p; done. }
  assert (NoDup ys) as Hnd.
  { unfold ys, sorted_set. rewrite merge_sort_Permutation.
    apply NoDup_remove_dups. }
  split; [done|]. split; [done|].
  split; [apply (Sorted_merge_sort Z.le)|].
  split; [done|]. split; [done|].
  split; [|split].
  - rewrite map_map. cbn [fst]. apply map_id.
  - apply Forall_fmap, Forall_forall. intros y Hy. cbn [snd].
    apply Hmem in Hy as (p & Hp & Hyear).
    cbn.
    match goal with
    | |- (0 < length ?l)%nat =>
        assert (p ∈ l) as Hin by (by apply list_elem_of_filter);
        destruct l; [by apply elem_of_nil in Hin|cbn; lia]
    end.
  - rewrite map_map. cbn [snd]. rewrite per_year_counts_sum by done.
    f_equal.
    assert (forall p, p ∈ papers -> year p ∈ ys) as Hall
        by (intros p Hp; apply Hmem; by exists p).
    clear Hmem Hnd Hne. clearbody ys.
    induction papers as [|p ps IH]; [done|].
    rewrite filter_cons_True by (apply Hall; left).
    f_equal. apply IH. intros q Hq. apply Hall. by right.
Qed.


End ReportingExtras.

Section ReportingExtrasExamples.
Import Fixture Site Reporting.

(** The five records of the site: three years, counts 2, 1 and 2. *)
Lemma statistics_add_up_witness :
  five_records <> []
  /\ total_papers five_statistics = length five_records
  /\ Sorted Z.le (stat_years five_statistics)
  /\ NoDup (stat_years five_statistics)
  /\ (forall y, y ∈ stat_years five_statistics
                <-> exists p, p ∈ five_records /\ year p = y)
  /\ map fst (papers_per_year five_statistics) = stat_years five_statistics
  /\ Forall (fun entry => (0 < entry.2)%nat) (papers_per_year five_statistics)
  /\ sum_list (map snd (papers_per_year five_statistics))
     = total_papers five_statistics.
Proof.
  apply (statistics_add_up five_records five_statistics).
  vm_compute. reflexivity.
Defined.

End ReportingExtrasExamples.

(** ** The admission gate, step by step *)

Section GateExtras.
Import Gate PipelineSpec.
Variable self : CVPRScraperAsync.

Lemma acquire_units (p p' : partition) :
  acquire p = Some p' ->
  units p' ≡ₚ units p
  /\ (length (in_flight p') + 2 * length (finished p')
      = S (length (in_flight p) + 2 * length (finished p)))%nat.
Proof.
  unfold acquire, units. destruct (waiting p) as [|u rest]; [done|].
  destruct (0 <? sem_value p)%Z; [|done]. intros [= <-]. simpl.
  split; [|lia]. symmetry. apply Permutation_middle.
Qed.

Lemma release_units (j : nat) (p p' : partition) :
  release j p = Some p' ->
  units p' ≡ₚ units p
  /\ (length (in_flight p') + 2 * length (finished p')
      = S (length (in_flight p) + 2 * length (finished p)))%nat.
Proof.
  unfold release, units.
  destruct (in_flight p !! j) as [u|] eqn:Hj; [|done].
  intros [= <-]. simpl. split.
  - apply Permutation_app_head. rewrite <- Permutation_middle.
    change (u :: delete j (in_flight p) ++ finished p)
      with ((u :: delete j (in_flight p)) ++ finished p).
    apply Permutation_app_tail. symmetry. by apply delete_Permutation.
  - rewrite length_delete by eauto. apply lookup_lt_Some in Hj. lia.
Qed.

Lemma sum_list_insert_succ {A} (f : A -> nat) (l : list A) (i : nat) (x y : A) :
  l !! i = Some x -> f y = S (f x) ->
  sum_list (map f (<[i := y]> l)) = S (sum_list (map f l)).
Proof.
  revert i. induction l as [|a l IH]; intros [|i] Hi Hf; simplify_eq/=;
    [lia|]. rewrite (IH i) by done. lia.
Qed.

Lemma exec_units (a : action) (ps ps' : list partition)
      (urls : list (list string)) :
  Forall2 (fun p us => units p ≡ₚ us) ps urls ->
  exec a ps = Some ps' ->
  Forall2 (fun p us => units p ≡ₚ us) ps' urls
  /\ steps_done ps' = S (steps_done ps).
Proof.
  intros Hall Hexec.
  assert (exists i p p', ps !! i = Some p /\ ps' = <[i := p']> ps
            /\ units p' ≡ₚ units p
            /\ (length (in_flight p') + 2 * length (finished p')
                = S (length (in_flight p) + 2 * length (finished p)))%nat)
    as (i & p & p' & Hi & -> & Hperm & Hcount).
  { destruct a as [i|i j]; simpl in Hexec;
      destruct (ps !! i) as [p|] eqn:Hi; simpl in Hexec; try done.
    - destruct (acquire p) as [p'|] eqn:Hp; simplify_eq/=.
      exists i, p, p'. by destruct (acquire_units p p' Hp).
    - destruct (release j p) as [p'|] eqn:Hp; simplify_eq/=.
      exists i, p, p'. by destruct (release_units j p p' Hp). }
  split.
  - destruct (Forall2_lookup_l _ _ _ _ _ Hall Hi) as (us & Hus & Hp).
    rewrite <- (list_insert_id urls i us Hus).
    apply Forall2_insert; [done|]. by rewrite Hperm.
  - unfold steps_done. by apply (sum_list_insert_succ _ ps i p p').
Qed.

Lemma initial_units (urls : list (list string)) :
  Forall2 (fun p us => units p ≡ₚ us) (initial self urls) urls
  /\ steps_done (initial self urls) = 0%nat.
Proof.
  unfold initial, steps_done. split.
  - induction urls as [|us urls IH]; constructor; [|done].
    unfold units, start. simpl. by rewrite !app_nil_r.
  - induction urls as [|us urls IH]; [done|].
    cbn [map sum_list sum_list_with] in *. unfold start at 1 2. simpl.
    exact IH.
Qed.

(** X25. The gate neither loses nor duplicates a unit, and every unit
    passes it at most once. Whatever the event loop does, the units of
    a partition that are waiting, in flight or finished are together
    the URLs the partition started with (as a multiset), and the number
    of steps taken is the number of units in flight plus twice the
    number of units finished. *)
Theorem gate_conserves_units
        (urls : list (list string)) (schedule : list action)
        (ps : list partition) :
  run schedule (initial self urls) = Some ps ->
  Forall2 (fun p us => units p ≡ₚ us) ps urls
  /\ steps_done ps = length schedule.
Proof.
  destruct (initial_units urls) as [H1 H2]. revert H1 H2.
  generalize (initial self urls) as ps0.
  assert (forall ps0 n,
            Forall2 (fun p us => units p ≡ₚ us) ps0 urls ->
            steps_done ps0 = n ->
            run schedule ps0 = Some ps ->
            Forall2 (fun p us => units p ≡ₚ us) ps urls
            /\ steps_done ps = (n + length schedule)%nat) as Hgen.
  { induction schedule as [|a rest IH]; intros ps0 n H1 H2; simpl.
    - intros [= <-]. split; [done|lia].
    - destruct (exec a ps0) as [ps1|] eqn:Ha; simpl; [|done].
      destruct (exec_units a ps0 ps1 urls H1 Ha) as [H1' H2'].
      intros Hrun.
      destruct (IH ps1 (S n) H1' ltac:(lia) Hrun) as [H3 H4].
      split; [done|lia]. }
  intros ps0 H1 H2 Hrun. by apply (Hgen ps0 0%nat).
Qed.

Lemma idle_or_enabled (p : partition) :
  (0 < max_concurrent self)%Z -> balanced self p ->
  (waiting p = [] /\ in_flight p = [])
  \/ (exists p', acquire p = Some p')
  \/ (exists j p', release j p = Some p').
Proof.
  intros Hpos [H0 Hsum]. destruct (in_flight p) as [|u rest] eqn:Hin.
  - destruct (waiting p) as [|v more] eqn:Hw; [by left|].
    right; left. unfold acquire. rewrite Hw.
    simpl in Hsum.
    assert ((0 <? sem_value p)%Z = true) as -> by (apply Z.ltb_lt; lia).
    by eexists.
  - right; right. exists 0%nat. unfold release. rewrite Hin. simpl.
    by eexists.
Qed.

(** X26. Under a positive limit the gate never blocks for good. At
    every point of every schedule, either no partition has a unit
    waiting or in flight (all are finished), or the event loop has a
    step it can take. *)
Theorem gate_makes_progress
        (urls : list (list string)) (schedule : list action)
        (ps : list partition) :
  (0 < max_concurrent self)%Z ->
  run schedule (initial self urls) = Some ps ->
  Forall (fun p => waiting p = [] /\ in_flight p = []) ps
  \/ exists a ps', exec a ps = Some ps'.
Proof.
  intros Hpos Hrun.
  apply (run_balanced self) in Hrun as [Hall _].
  2:{ unfold initial. apply Forall_map, Forall_true. intros u.
      apply start_balanced. lia. }
  clear urls schedule.
  assert (Forall (fun p => waiting p = [] /\ in_flight p = []) ps
          \/ exists i p, ps !! i = Some p
               /\ ((exists p', acquire p = Some p')
                   \/ (exists j p', release j p = Some p')))
    as [Hidle|(i & p & Hi & Hen)].
  { induction Hall as [|p ps Hp _ IH]; [by left|].
    destruct (idle_or_enabled p Hpos Hp) as [Hidle|Hen].
    - destruct IH as [IH|(i & q & Hi & Hen)].
      + left. by constructor.
      + right. by exists (S i), q.
    - right. by exists 0%nat, p. }
  - by left.
  - right. destruct Hen as [[p' Hp]|(j & p' & Hp)].
    + exists (Acquire i), (<[i := p']> ps). simpl. rewrite Hi. simpl.
      by rewrite Hp.
    + exists (Release i j), (<[i := p']> ps). simpl. rewrite Hi. simpl.
      by rewrite Hp.
Qed.

(** X27. With a limit of zero the gate never opens: from the state in
    which the partitions start, the event loop has no step to take,
    whatever the URLs. *)
Theorem gate_closed_at_zero (urls : list (list string)) (a : action) :
  max_concurrent self = 0%Z ->
  exec a (initial self urls) = None.
Proof.
  intros Hz. unfold initial.
  destruct a as [i|i j]; simpl; rewrite list_lookup_fmap;
    destruct (urls !! i) as [us|]; simpl; try done.
  unfold acquire, start. simpl. rewrite Hz. by destruct us.
Qed.

End GateExtras.

Section GateExtrasExamples.
Import Fixture Site Gate PipelineSpec.

(** Partitions 2017 and 2018 under a limit of one: both units are
    admitted, then the unit of 2017 finishes. *)
Lemma gate_conserves_units_witness :
  exists ps,
    run [Acquire 0; Acquire 1; Release 0 0] (initial limit_one [[doc_e]; [doc_g]])
    = Some ps
    /\ Forall2 (fun p us => units p ≡ₚ us) ps [[doc_e]; [doc_g]]
    /\ steps_done ps = 3%nat.
Proof.
  eexists. split; [vm_compute; reflexivity|].
  apply (gate_conserves_units limit_one [[doc_e]; [doc_g]]
           [Acquire 0; Acquire 1; Release 0 0]).
  vm_compute. reflexivity.
Defined.

(** The same partitions after the first admission. *)
Lemma gate_makes_progress_witness :
  exists ps,
    run [Acquire 0] (initial limit_one [[doc_e]; [doc_g]]) = Some ps
    /\ (Forall (fun p => waiting p = [] /\ in_flight p = []) ps
        \/ exists a ps', exec a ps = Some ps').
Proof.
  eexists. split; [vm_compute; reflexivity|].
  apply (gate_makes_progress limit_one [[doc_e]; [doc_g]] [Acquire 0]);
    [vm_compute; reflexivity | vm_compute; reflexivity].
Defined.

(** Partition 2017 under a limit of zero: its one unit is not
    admitted. *)
Lemma gate_closed_at_zero_witness :
  max_concurrent zero_limit = 0%Z
  /\ exec (Acquire 0) (initial zero_limit [[doc_e]]) = None.
Proof.
  split; [reflexivity|].
  apply (gate_closed_at_zero zero_limit [[doc_e]] (Acquire 0)). reflexivity.
Defined.

End GateExtrasExamples.

(** ** The cache directory under concurrent coroutines *)

Section CacheRaceExtras.
Import CacheRace.
Variables (key content : string) (nput nget : nat) (d0 : gmap string string).

Lemma step_other_file (i : nat) (st st' : state) (f : string) :
  f <> cache_file key ->
  well_formed key content nput (pool st) ->
  step i st = Some st' ->
  disk st' !! f = disk st !! f.
Proof.
  intros Hf Hwf. unfold step.
  destruct (pool st !! i) as [[|o rest]|] eqn:Hi; try done.
  pose proof (Hwf i _ Hi) as Ht.
  destruct (i <? nput)%nat.
  - destruct Ht as [Ht|[Ht|Ht]]; [| |done];
      injection Ht as -> ->; simpl; intros [= <-]; simpl;
      by rewrite lookup_insert_ne.
  - destruct Ht as [Ht|Ht]; [|done].
    injection Ht as -> ->. simpl. by intros [= <-].
Qed.

(** X28. Storing and looking up one key touches one file. With any
    number of coroutines storing a text under a key and any number
    looking the key up, in any interleaving, every other file of the
    cache directory is, at every point, as it was before: none is
    created, changed or removed. *)
Theorem cache_race_leaves_other_files
        (schedule : list nat) (st : state) (f : string) :
  f <> cache_file key ->
  run schedule (initial key content nput nget d0) = Some st ->
  disk st !! f = d0 !! f.
Proof.
  intros Hf.
  assert (forall st0,
            well_formed key content nput (pool st0) ->
            phase key content nput d0 st0 ->
            Forall (observable key content d0) (seen st0) ->
            disk st0 !! f = d0 !! f ->
            run schedule st0 = Some st -> disk st !! f = d0 !! f) as Hgen.
  { induction schedule as [|i rest IH]; intros st0 Hwf Hph Hseen Hd; simpl.
    - by intros [= <-].
    - destruct (step i st0) as [st1|] eqn:Hstep; simpl; [|done].
      pose proof (step_other_file i st0 st1 f Hf Hwf Hstep) as Hd1.
      apply (step_invariant key content nput d0) in Hstep
        as (Hwf1 & Hph1 & Hseen1); try done.
      apply IH; try done. by rewrite Hd1. }
  apply Hgen; [apply initial_well_formed|apply initial_phase|by constructor|done].
Qed.

End CacheRaceExtras.

Section CacheRaceExtrasExamples.
Import Fixture CacheRace.

(** Two stores and a look-up of paper_1 beside the cached index page
    of 2015, which stays as it is. *)
Lemma cache_race_leaves_other_files_witness :
  exists st,
    run [0; 2; 1; 0; 1]%nat
        (initial "paper_1" "<doc a>" 2 1
                 {[cache_file "cvpr_2015_main" := "<index 2015>"]})
    = Some st
    /\ disk st !! cache_file "cvpr_2015_main" = Some "<index 2015>".
Proof.
  eexists. split; [vm_compute; reflexivity|].
  etransitivity.
  - apply (cache_race_leaves_other_files "paper_1" "<doc a>" 2 1
             {[cache_file "cvpr_2015_main" := "<index 2015>"]}
             [0; 2; 1; 0; 1]%nat);
      [vm_compute; discriminate | vm_compute; reflexivity].
  - vm_compute. reflexivity.
Defined.

End CacheRaceExtrasExamples.
